(** * iLevel MCP server: a shallow embedding of [src/index.ts] and
    [src/ilevel-client.ts], and the properties of its dispatch layer.

    The file is organised as the program is: the JavaScript values the
    program handles (JSON data, [JSON.stringify], [JSON.parse], template
    literals), the HTTP client library interface (axios), the iLevel client
    class, and the MCP server handlers.  Definitions come first, theorems
    after them. *)

From Stdlib Require Import ZArith NArith Ascii String List Bool Lia.
From Stdlib Require Import DecimalString DecimalFacts DecimalPos DecimalN.
From stdpp Require Import base option list strings gmap.

Local Open Scope Z_scope.

(* ===================================================================== *)
(** * 1. JavaScript values                                                *)
(* ===================================================================== *)

(** The double quote, line feed and a run of [n] spaces. *)
Definition dq : ascii := "034"%char.
Definition nl : string := String "010"%char EmptyString.
Definition spaces (n : nat) : string := String.string_of_list_ascii (repeat " "%char n).

(** ** JSON data

    What [JSON.parse] produces and [JSON.stringify] consumes.  A string is a
    sequence of characters with codes 0..255; a number is an integer (the
    fraction and exponent forms of JSON numbers are outside this model); an
    object is the list of its own properties in enumeration order (the
    engine's moving of integer-like keys to the front is not modelled). *)
#[local] Unset Elimination Schemes.
Inductive json : Type :=
| JNull
| JBool (b : bool)
| JNumber (n : Z)
| JString (s : string)
| JArray (items : list json)
| JObject (props : list (string * json)).
#[local] Set Elimination Schemes.

(** A JavaScript value that may be [undefined] is an [option]: [None] is
    [undefined]. *)
Abbreviation jsval := (option json).
Abbreviation jobject := (list (string * json)).

(** [Number.MAX_SAFE_INTEGER]: the integers up to it are exact doubles and
    print as plain decimal digits. *)
Definition MAX_SAFE_INTEGER : Z := 9007199254740991.

Definition safe_integer (n : Z) : bool :=
  (- MAX_SAFE_INTEGER <=? n) && (n <=? MAX_SAFE_INTEGER).

(** Number to string, for integers: [String(n)], [`${n}`], and the number
    case of [JSON.stringify]. *)
Definition string_of_N (n : N) : string := NilEmpty.string_of_uint (N.to_uint n).

Definition string_of_Z (n : Z) : string :=
  match n with
  | Z0 => "0"
  | Zpos p => string_of_N (Npos p)
  | Zneg p => String "-"%char (string_of_N (Npos p))
  end.

(** Property read [o.k] and property write [o.k = v] on an object: a write to
    an existing key keeps the key's place, a new key goes last. *)
Fixpoint obj_get (k : string) (o : jobject) : jsval :=
  match o with
  | [] => None
  | (k', v) :: o' => if String.eqb k k' then Some v else obj_get k o'
  end.

Fixpoint obj_set (k : string) (v : json) (o : jobject) : jobject :=
  match o with
  | [] => [(k, v)]
  | (k', v') :: o' => if String.eqb k k' then (k, v) :: o' else (k', v') :: obj_set k v o'
  end.

(** An object literal [{k1: e1, ...}] some of whose values may be
    [undefined], as [JSON.stringify] sees it: a property whose value is
    [undefined] is left out. *)
Definition js_object (props : list (string * jsval)) : json :=
  JObject (omap (fun kv => match kv.2 with Some v => Some (kv.1, v) | None => None end) props).

(** ** [String(v)] and template literals *)

(** [Array.prototype.join] turns [null] and [undefined] items into the empty
    string; an object prints as [[object Object]]. *)
Fixpoint ToString_json (v : json) : string :=
  match v with
  | JNull => "null"
  | JBool true => "true"
  | JBool false => "false"
  | JNumber n => string_of_Z n
  | JString s => s
  | JArray items =>
      String.concat ","
        (map (fun x => match x with JNull => EmptyString | _ => ToString_json x end) items)
  | JObject _ => "[object Object]"
  end.

Definition ToString (v : jsval) : string :=
  match v with
  | None => "undefined"
  | Some x => ToString_json x
  end.

(** ** [JSON.stringify] *)

Definition hex_digit (n : N) : ascii :=
  match n with
  | 0 => "0" | 1 => "1" | 2 => "2" | 3 => "3" | 4 => "4" | 5 => "5" | 6 => "6"
  | 7 => "7" | 8 => "8" | 9 => "9" | 10 => "a" | 11 => "b" | 12 => "c"
  | 13 => "d" | 14 => "e" | _ => "f"
  end%N%char.

(** QuoteJSONString, one character: the seven short escapes, [\u00xx] for the
    other control characters, everything else as it is. *)
Definition escape_char (c : ascii) : string :=
  match c with
  | "008"%char => "\b"
  | "009"%char => "\t"
  | "010"%char => "\n"
  | "012"%char => "\f"
  | "013"%char => "\r"
  | "034"%char => String "\"%char (String dq EmptyString)
  | "\"%char => "\\"
  | _ =>
      if (N_of_ascii c <? 32)%N
      then "\u00" +:+ String (hex_digit (N_of_ascii c / 16)) (String (hex_digit (N_of_ascii c mod 16)) EmptyString)
      else String c EmptyString
  end.

Fixpoint quote_body (s : string) : string :=
  match s with
  | EmptyString => EmptyString
  | String c r => escape_char c +:+ quote_body r
  end.

Definition quote (s : string) : string :=
  String dq (quote_body s +:+ String dq EmptyString).

(** SerializeJSONProperty with a gap of [gap] spaces at the current
    indentation of [indent] spaces.  [gap = 0] is the compact form of
    [JSON.stringify(v)]; [JSON.stringify(v, null, 2)] is [gap = 2]. *)
Definition wrap (gap indent : nat) (opening closing : string) (parts : list string) : string :=
  match parts with
  | [] => opening +:+ closing
  | _ =>
      match gap with
      | O => opening +:+ String.concat "," parts +:+ closing
      | _ =>
          opening +:+ nl +:+ spaces (indent + gap)
            +:+ String.concat ("," +:+ nl +:+ spaces (indent + gap)) parts
            +:+ nl +:+ spaces indent +:+ closing
      end
  end.

Definition colon (gap : nat) : string :=
  match gap with O => ":" | _ => ": " end.

Fixpoint stringify_at (gap indent : nat) (v : json) : string :=
  match v with
  | JNull => "null"
  | JBool true => "true"
  | JBool false => "false"
  | JNumber n => string_of_Z n
  | JString s => quote s
  | JArray items =>
      wrap gap indent "[" "]" (map (stringify_at gap (indent + gap)) items)
  | JObject props =>
      wrap gap indent "{" "}"
        (map (fun kv => let (k, x) := kv : string * json in
                        quote k +:+ colon gap +:+ stringify_at gap (indent + gap) x) props)
  end.

(** [JSON.stringify(v, null, space)]: a numeric [space] is clamped to 10. *)
Definition JSON_stringify (v : json) (space : nat) : string :=
  stringify_at (Nat.min space 10) 0 v.

(** ** [JSON.parse]

    A recursive-descent reader of the JSON grammar over the model above.
    [None] stands for a [SyntaxError] and also for a text outside the model
    (a number with a fraction or an exponent, an integer that is not a safe
    integer, minus zero, a [\u] escape above [00ff]). *)

Definition is_ws (c : ascii) : bool :=
  match c with
  | " "%char | "009"%char | "010"%char | "013"%char => true
  | _ => false
  end.

Fixpoint skip_ws (s : string) : string :=
  match s with
  | String c r => if is_ws c then skip_ws r else s
  | EmptyString => s
  end.

Fixpoint strip_prefix (p s : string) : option string :=
  match p, s with
  | EmptyString, _ => Some s
  | String a p', String b s' => if Ascii.eqb a b then strip_prefix p' s' else None
  | String _ _, EmptyString => None
  end.

Definition digit_of_char (c : ascii) : option (Decimal.uint -> Decimal.uint) :=
  match c with
  | "0"%char => Some Decimal.D0 | "1"%char => Some Decimal.D1
  | "2"%char => Some Decimal.D2 | "3"%char => Some Decimal.D3
  | "4"%char => Some Decimal.D4 | "5"%char => Some Decimal.D5
  | "6"%char => Some Decimal.D6 | "7"%char => Some Decimal.D7
  | "8"%char => Some Decimal.D8 | "9"%char => Some Decimal.D9
  | _ => None
  end.

(** The longest run of digits at the head of [s], and what follows it. *)
Fixpoint read_digits (s : string) : Decimal.uint * string :=
  match s with
  | String c r =>
      match digit_of_char c with
      | Some d => let (ds, r') := read_digits r in (d ds, r')
      | None => (Decimal.Nil, s)
      end
  | EmptyString => (Decimal.Nil, s)
  end.

(** JSON writes an integer as [0] or as digits that do not start with [0]. *)
Definition leading_zero (ds : Decimal.uint) : bool :=
  match ds with
  | Decimal.D0 Decimal.Nil => false
  | Decimal.D0 _ => true
  | _ => false
  end.

(** A [.], [e] or [E] after the digits starts a fraction or an exponent. *)
Definition number_goes_on (s : string) : bool :=
  match s with
  | String c _ =>
      match c with
      | "."%char | "e"%char | "E"%char => true
      | _ => false
      end
  | EmptyString => false
  end.

Definition parse_digits (s : string) : option (N * string) :=
  let (ds, r) := read_digits s in
  match ds with
  | Decimal.Nil => None
  | _ => if leading_zero ds || number_goes_on r then None else Some (N.of_uint ds, r)
  end.

Definition parse_number (s : string) : option (Z * string) :=
  match s with
  | String "-"%char r =>
      '(n, r') ← parse_digits r;
      if (n =? 0)%N then None
      else if safe_integer (- Z.of_N n) then Some (- Z.of_N n, r') else None
  | _ =>
      '(n, r') ← parse_digits s;
      if safe_integer (Z.of_N n) then Some (Z.of_N n, r') else None
  end.

(** The value of a hexadecimal digit, in either case: [0]-[9] are the codes
    48-57, [A]-[F] 65-70 and [a]-[f] 97-102. *)
Definition hex_value (c : ascii) : option N :=
  let code := N_of_ascii c in
  if ((48 <=? code) && (code <=? 57))%N then Some (code - 48)%N
  else if ((65 <=? code) && (code <=? 70))%N then Some (code - 55)%N
  else if ((97 <=? code) && (code <=? 102))%N then Some (code - 87)%N
  else None.

Definition hex4 (a b c d : ascii) : option N :=
  x3 ← hex_value a; x2 ← hex_value b; x1 ← hex_value c; x0 ← hex_value d;
  Some (((x3 * 16 + x2) * 16 + x1) * 16 + x0)%N.

Definition cons_char (c : ascii) (rest : option (string * string)) : option (string * string) :=
  '(s, r) ← rest; Some (String c s, r).

(** The characters of a string literal after its opening quote, up to and
    including the closing quote. *)
Fixpoint parse_chars (s : string) : option (string * string) :=
  match s with
  | EmptyString => None
  | String c r =>
      match c with
      | "034"%char => Some (EmptyString, r)
      | "\"%char =>
          match r with
          | String e r1 =>
              match e with
              | "034"%char | "\"%char | "/"%char => cons_char e (parse_chars r1)
              | "b"%char => cons_char "008"%char (parse_chars r1)
              | "t"%char => cons_char "009"%char (parse_chars r1)
              | "n"%char => cons_char "010"%char (parse_chars r1)
              | "f"%char => cons_char "012"%char (parse_chars r1)
              | "r"%char => cons_char "013"%char (parse_chars r1)
              | "u"%char =>
                  match r1 with
                  | String h3 (String h2 (String h1 (String h0 r2))) =>
                      match hex4 h3 h2 h1 h0 with
                      | Some n =>
                          if (n <? 256)%N then cons_char (ascii_of_N n) (parse_chars r2)
                          else None
                      | None => None
                      end
                  | _ => None
                  end
              | _ => None
              end
          | EmptyString => None
          end
      | _ => if (N_of_ascii c <? 32)%N then None else cons_char c (parse_chars r)
      end
  end.

(** Building the object of a member list: a repeated key overwrites. *)
Definition object_of_members (members : jobject) : jobject :=
  fold_left (fun o kv => obj_set kv.1 kv.2 o) members [].

(** The next character after white space must be [c]. *)
Definition expect (c : ascii) (s : string) : option string :=
  match skip_ws s with
  | String c' r => if Ascii.eqb c c' then Some r else None
  | EmptyString => None
  end.

Fixpoint parse_value (fuel : nat) (s : string) : option (json * string) :=
  match fuel with
  | O => None
  | S fuel' =>
      match skip_ws s with
      | EmptyString => None
      | String c r =>
          match c with
          | "n"%char => r' ← strip_prefix "ull" r; Some (JNull, r')
          | "t"%char => r' ← strip_prefix "rue" r; Some (JBool true, r')
          | "f"%char => r' ← strip_prefix "alse" r; Some (JBool false, r')
          | "034"%char => '(str, r') ← parse_chars r; Some (JString str, r')
          | "["%char =>
              match expect "]" r with
              | Some r' => Some (JArray [], r')
              | None => '(items, r') ← parse_elements fuel' r; Some (JArray items, r')
              end
          | "{"%char =>
              match expect "}" r with
              | Some r' => Some (JObject [], r')
              | None =>
                  '(members, r') ← parse_members fuel' r;
                  Some (JObject (object_of_members members), r')
              end
          | _ => '(n, r') ← parse_number (String c r); Some (JNumber n, r')
          end
      end
  end
with parse_elements (fuel : nat) (s : string) : option (list json * string) :=
  match fuel with
  | O => None
  | S fuel' =>
      '(v, r) ← parse_value fuel' s;
      match expect "," r with
      | Some r' => '(vs, r'') ← parse_elements fuel' r'; Some (v :: vs, r'')
      | None => r' ← expect "]" r; Some ([v], r')
      end
  end
with parse_members (fuel : nat) (s : string) : option (jobject * string) :=
  match fuel with
  | O => None
  | S fuel' =>
      r ← expect dq s;
      '(k, r1) ← parse_chars r;
      r2 ← expect ":" r1;
      '(v, r3) ← parse_value fuel' r2;
      match expect "," r3 with
      | Some r4 => '(ms, r5) ← parse_members fuel' r4; Some ((k, v) :: ms, r5)
      | None => r4 ← expect "}" r3; Some ([(k, v)], r4)
      end
  end.

(** [JSON.parse(text)]: one value, then nothing but white space.  The text's
    length bounds the depth of the descent. *)
Definition JSON_parse (text : string) : option json :=
  '(v, r) ← parse_value (S (String.length text)) text;
  match skip_ws r with
  | EmptyString => Some v
  | String _ _ => None
  end.

(** ** Values of the model that are JavaScript values

    Every number is a safe integer and no object has a key twice. *)
Fixpoint distinct (keys : list string) : bool :=
  match keys with
  | [] => true
  | k :: rest => negb (existsb (String.eqb k) rest) && distinct rest
  end.

Fixpoint json_wf (v : json) : bool :=
  match v with
  | JNumber n => safe_integer n
  | JArray items => forallb json_wf items
  | JObject props =>
      distinct (map fst props)
      && forallb (fun kv => let (_, x) := kv : string * json in json_wf x) props
  | _ => true
  end.

(* ===================================================================== *)
(** * 2. Errors, the HTTP client library and the effects of a call        *)
(* ===================================================================== *)

(** The error codes of the MCP SDK that the server uses, with their JSON-RPC
    numbers. *)
Inductive ErrorCode : Type :=
| InvalidRequest
| MethodNotFound
| InternalError.

Definition ErrorCode_number (c : ErrorCode) : Z :=
  match c with
  | InvalidRequest => -32600
  | MethodNotFound => -32601
  | InternalError => -32603
  end.

Record AxiosResponse : Type := { status : Z; data : json }.

(** The values the program throws and catches.  An axios error carries the
    response when one came back with a status outside 2xx, and the request
    when one was made; the other two kinds have neither property. *)
Inductive JsError : Type :=
| AxiosError (message : string) (request : bool) (response : option AxiosResponse)
| McpError (code : ErrorCode) (message : string)
| TypeError (message : string).

Definition error_message (e : JsError) : string :=
  match e with
  | AxiosError m _ _ | McpError _ m | TypeError m => m
  end.

Definition error_response (e : JsError) : option AxiosResponse :=
  match e with
  | AxiosError _ _ r => r
  | _ => None
  end.

Definition error_request (e : JsError) : bool :=
  match e with
  | AxiosError _ r _ => r
  | _ => false
  end.

(** [new McpError(code, message)]: the SDK's constructor prefixes the
    message with the code. *)
Definition new_McpError (code : ErrorCode) (message : string) : JsError :=
  McpError code ("MCP error " +:+ string_of_Z (ErrorCode_number code) +:+ ": " +:+ message).

Module axios.

Record BasicAuth : Type := { username : string; password : string }.

(** The settings [axios.create] is called with. *)
Record Instance : Type := {
  baseURL : string;
  auth : BasicAuth;
  headers : list (string * string);
  timeout : Z
}.

Definition create (settings : Instance) : Instance := settings.

(** The calls the client makes on its instance: [get(url, {params})],
    [post(url, data)], [delete(url)] and [request({method, url, data})]. *)
Inductive Call : Type :=
| Get (url : string) (params : jsval)
| Post (url : string) (data : jsval)
| Delete (url : string)
| Request (method url data : jsval).

(** A request as the remote end sees it: the call with the instance's
    settings. *)
Record Issued : Type := { via : Instance; call : Call }.

(** What comes back: a response with a status and a body (already read as
    JSON where it is JSON, a string otherwise), silence until the timeout,
    no response for another reason, or a failure before anything is
    sent. *)
Inductive Reply : Type :=
| Responded (status : Z) (body : json)
| TimedOut
| NoResponse (message : string)
| NotSent (message : string).

(** The default [validateStatus]. *)
Definition validateStatus (status : Z) : bool :=
  (200 <=? status) && (status <? 300).

Definition combineURLs_strip_trailing (s : string) : string :=
  let r := String.rev s in
  match r with
  | String "/"%char (String "/"%char r') => String.rev r'
  | String "/"%char r' => String.rev r'
  | _ => s
  end.

Fixpoint combineURLs_strip_leading (s : string) : string :=
  match s with
  | String "/"%char r => combineURLs_strip_leading r
  | _ => s
  end.

(** [combineURLs(baseURL, relativeURL)], how axios joins the base to a
    relative path. *)
Definition combineURLs (baseURL relativeURL : string) : string :=
  match relativeURL with
  | EmptyString => baseURL
  | _ => combineURLs_strip_trailing baseURL +:+ "/" +:+ combineURLs_strip_leading relativeURL
  end.

(** The verb and the absolute URL of a call on a relative path (every path
    the client builds starts with a single slash); what a [request] call
    sends is left to axios. *)
Definition request_line (rq : Issued) : option (string * string) :=
  match call rq with
  | Get url _ => Some ("GET", combineURLs (baseURL (via rq)) url)
  | Post url _ => Some ("POST", combineURLs (baseURL (via rq)) url)
  | Delete url => Some ("DELETE", combineURLs (baseURL (via rq)) url)
  | Request _ _ _ => None
  end.

End axios.

(** ** The configuration record of [ilevel-client.ts] *)

(** An optional property of an object: not there, there with the value
    [undefined], or there with a value. *)
Inductive optional (A : Type) : Type :=
| absent
| undefined
| defined (a : A).
Arguments absent {A}.
Arguments undefined {A}.
Arguments defined {A} a.

Record ILevelConfig : Type := {
  baseUrl : string;
  username : string;
  password : string;
  isSandbox : optional bool;
  apiVersion : optional string
}.

(** ** State and effects

    Configuration objects live in a store and are passed by reference.  A
    handler's effects are the objects it allocates and the requests it hands
    to axios, in order.  Console output is diagnostic only and is not part of
    the model. *)
Abbreviation loc := positive.

Record State : Type := {
  heap : gmap loc ILevelConfig;
  issued : list axios.Issued
}.

Definition Remote : Type := axios.Issued -> axios.Reply.

Inductive Completion (A : Type) : Type :=
| Normal (a : A)
| Throw (e : JsError).
Arguments Normal {A} a.
Arguments Throw {A} e.

(** A computation runs against the remote end from a state.  [None] is a
    read through a reference that points nowhere, which no program does. *)
Definition IO (A : Type) : Type := Remote -> State -> option (Completion A * State).

Definition ret {A : Type} (a : A) : IO A :=
  fun _ st => Some (Normal a, st).

Definition throw {A : Type} (e : JsError) : IO A :=
  fun _ st => Some (Throw e, st).

Definition bind {A B : Type} (m : IO A) (k : A -> IO B) : IO B :=
  fun remote st =>
    match m remote st with
    | Some (Normal a, st') => k a remote st'
    | Some (Throw e, st') => Some (Throw e, st')
    | None => None
    end.

Declare Scope io_scope.
Delimit Scope io_scope with io.
Notation "'let*' x := m 'in' k" := (bind m (fun x => k))
  (at level 10, x name, m at level 100, k at level 200) : io_scope.
Local Open Scope io_scope.

(** [try { m } catch (error) { handler(error) }] *)
Definition try_catch {A : Type} (m : IO A) (handler : JsError -> IO A) : IO A :=
  fun remote st =>
    match m remote st with
    | Some (Throw e, st') => handler e remote st'
    | other => other
    end.

Definition alloc (o : ILevelConfig) : IO loc :=
  fun _ st =>
    let l := fresh (dom (heap st)) in
    Some (Normal l, {| heap := <[l := o]> (heap st); issued := issued st |}).

Definition deref (l : loc) : IO ILevelConfig :=
  fun _ st =>
    match heap st !! l with
    | Some o => Some (Normal o, st)
    | None => None
    end.

(** How axios settles a reply: a status the default [validateStatus] accepts
    resolves, everything else rejects. *)
Definition axios_settle (inst : axios.Instance) (r : axios.Reply) : Completion AxiosResponse :=
  match r with
  | axios.Responded st body =>
      if axios.validateStatus st
      then Normal {| status := st; data := body |}
      else Throw (AxiosError ("Request failed with status code " +:+ string_of_Z st) true
                    (Some {| status := st; data := body |}))
  | axios.TimedOut =>
      Throw (AxiosError ("timeout of " +:+ string_of_Z (axios.timeout inst) +:+ "ms exceeded")
               true None)
  | axios.NoResponse m => Throw (AxiosError m true None)
  | axios.NotSent m => Throw (AxiosError m false None)
  end.

Definition record_request (st : State) (rq : axios.Issued) : State :=
  {| heap := heap st; issued := issued st ++ [rq] |}.

(** One call on an axios instance: the request is recorded, the remote end
    answers, axios settles the answer. *)
Definition axios_call (inst : axios.Instance) (c : axios.Call) : IO AxiosResponse :=
  fun remote st =>
    let rq := {| axios.via := inst; axios.call := c |} in
    Some (axios_settle inst (remote rq), record_request st rq).

(* ===================================================================== *)
(** * 3. [src/ilevel-client.ts]: the iLevel API client                     *)
(* ===================================================================== *)

Module ILevelClient.

(** The two private fields: the axios instance and the reference to the
    client's own configuration object. *)
Record t : Type := { client : axios.Instance; config : loc }.

(** The object literal [{ apiVersion: 'v1', ...config }]: the spread
    overwrites the default with the caller's property when the caller's
    object has one, whatever its value. *)
Definition spread_over_default (config : ILevelConfig) : ILevelConfig :=
  {| baseUrl := baseUrl config;
     username := username config;
     password := password config;
     isSandbox := isSandbox config;
     apiVersion := match apiVersion config with
                   | absent => defined "v1"
                   | given => given
                   end |}.

(** An optional string inside a template literal. *)
Definition template (v : optional string) : string :=
  match v with
  | defined s => s
  | _ => "undefined"
  end.

(** [constructor(config)].  The two interceptors only write to the
    console. *)
Definition new (config : loc) : IO t :=
  let* given := deref config in
  let this_config := spread_over_default given in
  let* this_config_ref := alloc this_config in
  ret {| client :=
           axios.create
             {| axios.baseURL := baseUrl this_config +:+ "/api/" +:+ template (apiVersion this_config);
                axios.auth := {| axios.username := username this_config;
                                 axios.password := password this_config |};
                axios.headers := [("Content-Type", "application/json");
                                  ("Accept", "application/json")];
                axios.timeout := 30000 |};
         config := this_config_ref |}.

Definition testConnection (this : t) : IO bool :=
  try_catch
    (let* _ := axios_call (client this) (axios.Get "/users" None) in
     ret true)
    (fun _ => ret false).

Definition getUsers (this : t) (params : jsval) : IO json :=
  let* response := axios_call (client this) (axios.Get "/users" params) in
  ret (data response).

Definition getUser (this : t) (userId : jsval) : IO json :=
  let* response := axios_call (client this) (axios.Get ("/users/" +:+ ToString userId) None) in
  ret (data response).

Definition getClients (this : t) (params : jsval) : IO json :=
  let* response := axios_call (client this) (axios.Get "/clients" params) in
  ret (data response).

Definition getClient (this : t) (clientId : jsval) : IO json :=
  let* response := axios_call (client this) (axios.Get ("/clients/" +:+ ToString clientId) None) in
  ret (data response).

Definition getPortfolios (this : t) (params : jsval) : IO json :=
  let* response := axios_call (client this) (axios.Get "/webapp" params) in
  ret (data response).

Definition getAssets (this : t) (params : jsval) : IO json :=
  let* response := axios_call (client this) (axios.Get "/assets" params) in
  ret (data response).

Definition getFunds (this : t) (params : jsval) : IO json :=
  let* response := axios_call (client this) (axios.Get "/funds" params) in
  ret (data response).

Definition getInvestments (this : t) (params : jsval) : IO json :=
  let* response := axios_call (client this) (axios.Get "/investments" params) in
  ret (data response).

Definition getDocuments (this : t) (params : jsval) : IO json :=
  let* response := axios_call (client this) (axios.Get "/documents-api" params) in
  ret (data response).

Definition getDocument (this : t) (documentId : jsval) : IO json :=
  let* response :=
    axios_call (client this) (axios.Get ("/documents-api/" +:+ ToString documentId) None) in
  ret (data response).

Definition getValuations (this : t) (params : jsval) : IO json :=
  let* response := axios_call (client this) (axios.Get "/valuation-api" params) in
  ret (data response).

Definition createValuation (this : t) (data_ : jsval) : IO json :=
  let* response := axios_call (client this) (axios.Post "/valuation-api" data_) in
  ret (data response).

Definition queryData (this : t) (query : jsval) : IO json :=
  let* response := axios_call (client this) (axios.Post "/data-retrieval" query) in
  ret (data response).

Definition getWebhooks (this : t) : IO json :=
  let* response := axios_call (client this) (axios.Get "/webhooks" None) in
  ret (data response).

Definition createWebhook (this : t) (data_ : jsval) : IO json :=
  let* response := axios_call (client this) (axios.Post "/webhooks" data_) in
  ret (data response).

Definition deleteWebhook (this : t) (webhookId : jsval) : IO json :=
  let* response :=
    axios_call (client this) (axios.Delete ("/webhooks/" +:+ ToString webhookId)) in
  ret (data response).

Definition getCalculations (this : t) (params : jsval) : IO json :=
  let* response := axios_call (client this) (axios.Get "/calcs-api" params) in
  ret (data response).

Definition request (this : t) (method endpoint data_ : jsval) : IO json :=
  let* response := axios_call (client this) (axios.Request method endpoint data_) in
  ret (data response).

End ILevelClient.

(* ===================================================================== *)
(** * 4. [src/index.ts]: the MCP server                                    *)
(* ===================================================================== *)

(** The two module-level constants the handlers close over. *)
Record Server : Type := {
  config : loc;
  iLevelClient : ILevelClient.t
}.

Record TextContent : Type := { type : string; text : string }.
Record CallToolResult : Type := { content : list TextContent }.

Module Resource.
Record t : Type :=
  { uri : string; name : string; description : string; mimeType : string }.
End Resource.

Module Contents.
Record t : Type := { uri : string; mimeType : string; text : string }.
End Contents.

Record ReadResourceResult : Type := { contents : list Contents.t }.

(** ** Helper functions *)

Definition formatResponse (data_ : json) : CallToolResult :=
  {| content :=
       [ {| type := "text";
            text := match data_ with
                    | JString s => s
                    | _ => JSON_stringify data_ 2
                    end |} ] |}.

(** [handleError] never returns. *)
Definition handleError {A : Type} (error : JsError) : IO A :=
  match error_response error with
  | Some response =>
      throw (new_McpError InternalError
               ("iLevel API error: " +:+ string_of_Z (status response) +:+ " - "
                  +:+ JSON_stringify (data response) 0))
  | None =>
      if error_request error
      then throw (new_McpError InternalError "No response received from iLevel API")
      else throw (new_McpError InternalError ("Request failed: " +:+ error_message error))
  end.

(** ** List tools *)

Record ToolDescriptor : Type :=
  { name : string; description : string; inputSchema : json }.

Definition property (ty about : string) : json :=
  JObject [("type", JString ty); ("description", JString about)].

Definition object_schema (properties : jobject) (required : list string) : json :=
  JObject ([("type", JString "object"); ("properties", JObject properties)]
             ++ match required with
                | [] => []
                | _ => [("required", JArray (map JString required))]
                end).

Definition paging_properties : jobject :=
  [("page", property "number" "Page number for pagination");
   ("pageSize", property "number" "Number of records per page");
   ("filters", property "object" "Optional filters (JSON object)")].

Definition filters_properties : jobject :=
  [("filters", property "object" "Optional filters (JSON object)")].

Definition tools : list ToolDescriptor :=
  [ {| name := "test_connection";
       description := "Test connection to the iLevel API";
       inputSchema := object_schema [] [] |};
    {| name := "get_users";
       description := "Get a list of users from iLevel";
       inputSchema := object_schema paging_properties [] |};
    {| name := "get_user";
       description := "Get details of a specific user by ID";
       inputSchema := object_schema [("userId", property "string" "User ID")] ["userId"] |};
    {| name := "get_clients";
       description := "Get a list of clients from iLevel";
       inputSchema := object_schema paging_properties [] |};
    {| name := "get_client";
       description := "Get details of a specific client by ID";
       inputSchema := object_schema [("clientId", property "string" "Client ID")] ["clientId"] |};
    {| name := "get_portfolios";
       description := "Get portfolio data from iLevel";
       inputSchema := object_schema paging_properties [] |};
    {| name := "get_assets";
       description := "Get assets from iLevel";
       inputSchema := object_schema filters_properties [] |};
    {| name := "get_funds";
       description := "Get funds from iLevel";
       inputSchema := object_schema filters_properties [] |};
    {| name := "get_investments";
       description := "Get investments from iLevel";
       inputSchema := object_schema filters_properties [] |};
    {| name := "get_documents";
       description := "Get documents from iLevel";
       inputSchema := object_schema paging_properties [] |};
    {| name := "get_document";
       description := "Get a specific document by ID";
       inputSchema :=
         object_schema [("documentId", property "string" "Document ID")] ["documentId"] |};
    {| name := "get_valuations";
       description := "Get valuations from iLevel";
       inputSchema := object_schema filters_properties [] |};
    {| name := "create_valuation";
       description := "Create or update a valuation in iLevel";
       inputSchema :=
         object_schema [("data", property "object" "Valuation data (JSON object)")] ["data"] |};
    {| name := "get_calculations";
       description := "Get calculations from iLevel";
       inputSchema := object_schema filters_properties [] |};
    {| name := "query_data";
       description := "Query data from iLevel using the data retrieval API";
       inputSchema :=
         object_schema [("query", property "object" "Query parameters (JSON object)")] ["query"] |};
    {| name := "get_webhooks";
       description := "Get configured webhooks from iLevel";
       inputSchema := object_schema [] [] |};
    {| name := "create_webhook";
       description := "Create a new webhook in iLevel";
       inputSchema :=
         object_schema
           [("url", property "string" "Webhook URL");
            ("events",
             JObject [("type", JString "array");
                      ("items", JObject [("type", JString "string")]);
                      ("description", JString "Array of event types to subscribe to")]);
            ("description", property "string" "Optional webhook description")]
           ["url"; "events"] |};
    {| name := "delete_webhook";
       description := "Delete a webhook from iLevel";
       inputSchema :=
         object_schema [("webhookId", property "string" "Webhook ID to delete")] ["webhookId"] |};
    {| name := "custom_request";
       description :=
         "Make a custom request to any iLevel API endpoint (useful for endpoints not yet implemented)";
       inputSchema :=
         object_schema
           [("method",
             JObject [("type", JString "string");
                      ("enum", JArray [JString "GET"; JString "POST"; JString "PUT"; JString "DELETE"]);
                      ("description", JString "HTTP method")]);
            ("endpoint", property "string" "API endpoint path (e.g., /users, /documents-api)");
            ("data", property "object" "Optional request body data (JSON object)")]
           ["method"; "endpoint"] |} ].

Definition list_tools : list ToolDescriptor := tools.

(** ** Call tool *)

(** The labelled cases of the [switch (name)]. *)
Inductive Case : Type :=
| test_connection | get_users | get_user | get_clients | get_client
| get_portfolios | get_assets | get_funds | get_investments
| get_documents | get_document | get_valuations | create_valuation
| get_calculations | query_data | get_webhooks | create_webhook
| delete_webhook | custom_request.

Definition case_labels : list (string * Case) :=
  [ ("test_connection", test_connection);
    ("get_users", get_users);
    ("get_user", get_user);
    ("get_clients", get_clients);
    ("get_client", get_client);
    ("get_portfolios", get_portfolios);
    ("get_assets", get_assets);
    ("get_funds", get_funds);
    ("get_investments", get_investments);
    ("get_documents", get_documents);
    ("get_document", get_document);
    ("get_valuations", get_valuations);
    ("create_valuation", create_valuation);
    ("get_calculations", get_calculations);
    ("query_data", query_data);
    ("get_webhooks", get_webhooks);
    ("create_webhook", create_webhook);
    ("delete_webhook", delete_webhook);
    ("custom_request", custom_request) ].

(** [switch] compares the name with each label in turn by [===]; [None] is
    the [default] branch. *)
Fixpoint switch (labels : list (string * Case)) (name_ : string) : option Case :=
  match labels with
  | [] => None
  | (label, c) :: rest => if String.eqb name_ label then Some c else switch rest name_
  end.

(** [const { p, ... } = args]: reading a property of [undefined] throws. *)
Definition destructure (args : option jobject) (p : string) : IO jobject :=
  match args with
  | Some o => ret o
  | None =>
      throw (TypeError ("Cannot destructure property '" +:+ p
                          +:+ "' of 'args' as it is undefined."))
  end.

(** [(args as any)?.filters] *)
Definition optional_chain (args : option jobject) (p : string) : jsval :=
  match args with
  | Some o => obj_get p o
  | None => None
  end.

Definition connection_report (isConnected : bool) : json :=
  JObject [("connected", JBool isConnected);
           ("message",
            JString (if isConnected then "Successfully connected to iLevel API"
                     else "Failed to connect to iLevel API"))].

(** The body of each case. *)
Definition run_case (srv : Server) (c : Case) (args : option jobject) : IO CallToolResult :=
  let iLevelClient := iLevelClient srv in
  match c with
  | test_connection =>
      let* isConnected := ILevelClient.testConnection iLevelClient in
      ret (formatResponse (connection_report isConnected))
  | get_users =>
      let* data_ := ILevelClient.getUsers iLevelClient (JObject <$> args) in
      ret (formatResponse data_)
  | get_user =>
      let* o := destructure args "userId" in
      let* data_ := ILevelClient.getUser iLevelClient (obj_get "userId" o) in
      ret (formatResponse data_)
  | get_clients =>
      let* data_ := ILevelClient.getClients iLevelClient (JObject <$> args) in
      ret (formatResponse data_)
  | get_client =>
      let* o := destructure args "clientId" in
      let* data_ := ILevelClient.getClient iLevelClient (obj_get "clientId" o) in
      ret (formatResponse data_)
  | get_portfolios =>
      let* data_ := ILevelClient.getPortfolios iLevelClient (JObject <$> args) in
      ret (formatResponse data_)
  | get_assets =>
      let* data_ := ILevelClient.getAssets iLevelClient (optional_chain args "filters") in
      ret (formatResponse data_)
  | get_funds =>
      let* data_ := ILevelClient.getFunds iLevelClient (optional_chain args "filters") in
      ret (formatResponse data_)
  | get_investments =>
      let* data_ := ILevelClient.getInvestments iLevelClient (optional_chain args "filters") in
      ret (formatResponse data_)
  | get_documents =>
      let* data_ := ILevelClient.getDocuments iLevelClient (JObject <$> args) in
      ret (formatResponse data_)
  | get_document =>
      let* o := destructure args "documentId" in
      let* data_ := ILevelClient.getDocument iLevelClient (obj_get "documentId" o) in
      ret (formatResponse data_)
  | get_valuations =>
      let* data_ := ILevelClient.getValuations iLevelClient (optional_chain args "filters") in
      ret (formatResponse data_)
  | create_valuation =>
      let* o := destructure args "data" in
      let* data_ := ILevelClient.createValuation iLevelClient (obj_get "data" o) in
      ret (formatResponse data_)
  | get_calculations =>
      let* data_ := ILevelClient.getCalculations iLevelClient (optional_chain args "filters") in
      ret (formatResponse data_)
  | query_data =>
      let* o := destructure args "query" in
      let* data_ := ILevelClient.queryData iLevelClient (obj_get "query" o) in
      ret (formatResponse data_)
  | get_webhooks =>
      let* data_ := ILevelClient.getWebhooks iLevelClient in
      ret (formatResponse data_)
  | create_webhook =>
      let* data_ := ILevelClient.createWebhook iLevelClient (JObject <$> args) in
      ret (formatResponse data_)
  | delete_webhook =>
      let* o := destructure args "webhookId" in
      let* data_ := ILevelClient.deleteWebhook iLevelClient (obj_get "webhookId" o) in
      ret (formatResponse data_)
  | custom_request =>
      let* o := destructure args "method" in
      let* result :=
        ILevelClient.request iLevelClient
          (obj_get "method" o) (obj_get "endpoint" o) (obj_get "data" o) in
      ret (formatResponse result)
  end.

(** The [CallToolRequestSchema] handler: the whole [switch], its [default]
    included, sits inside the [try]. *)
Definition call_tool (srv : Server) (name_ : string) (args : option jobject) : IO CallToolResult :=
  try_catch
    (match switch case_labels name_ with
     | Some c => run_case srv c args
     | None => throw (new_McpError MethodNotFound ("Unknown tool: " +:+ name_))
     end)
    handleError.

(** ** Resources *)

Definition list_resources : list Resource.t :=
  [ {| Resource.uri := "ilevel://config";
       Resource.name := "iLevel Configuration";
       Resource.description := "Current iLevel API configuration";
       Resource.mimeType := "application/json" |} ].

(** [v || d] on an optional string: [undefined] and the empty string are
    falsy. *)
Definition or_default (v : optional string) (d : string) : string :=
  match v with
  | defined (String c s) => String c s
  | _ => d
  end.

Definition optional_bool_value (v : optional bool) : jsval :=
  match v with
  | defined b => Some (JBool b)
  | _ => None
  end.

Definition config_snapshot (c : ILevelConfig) : json :=
  js_object [("baseUrl", Some (JString (baseUrl c)));
             ("username", Some (JString (username c)));
             ("isSandbox", optional_bool_value (isSandbox c));
             ("apiVersion", Some (JString (or_default (apiVersion c) "v1")))].

Definition read_resource (srv : Server) (uri : string) : IO ReadResourceResult :=
  if String.eqb uri "ilevel://config"
  then
    let* c := deref (config srv) in
    ret {| contents :=
             [ {| Contents.uri := uri;
                  Contents.mimeType := "application/json";
                  Contents.text := JSON_stringify (config_snapshot c) 2 |} ] |}
  else throw (new_McpError InvalidRequest ("Unknown resource: " +:+ uri)).

(** ** Start-up: the module body, then [main()] *)

Inductive Boot : Type :=
| Exited (code : Z)
| Serving (srv : Server).

(** A string from the environment that passes the [!x] test: it is set and
    not empty. *)
Definition truthy (v : option string) : option string :=
  match v with
  | Some (String c s) => Some (String c s)
  | _ => None
  end.

(** The four constants read from [process.env]. *)
Definition ILEVEL_BASE_URL (env : gmap string string) : option string :=
  env !! "ILEVEL_BASE_URL".
Definition ILEVEL_USERNAME (env : gmap string string) : option string :=
  env !! "ILEVEL_USERNAME".
Definition ILEVEL_PASSWORD (env : gmap string string) : option string :=
  env !! "ILEVEL_PASSWORD".
Definition ILEVEL_SANDBOX (env : gmap string string) : bool :=
  match env !! "ILEVEL_SANDBOX" with
  | Some v => String.eqb v "true"
  | None => false
  end.

(** The guard exits with status 1 before the configuration object, the
    client and the first request exist.  [main] then probes the connection
    and only logs what it finds. *)
Definition startup (env : gmap string string) : IO Boot :=
  match truthy (ILEVEL_BASE_URL env), truthy (ILEVEL_USERNAME env),
        truthy (ILEVEL_PASSWORD env) with
  | Some base, Some user, Some pass =>
      let* config_ := alloc {| baseUrl := base;
                               username := user;
                               password := pass;
                               isSandbox := defined (ILEVEL_SANDBOX env);
                               apiVersion := absent |} in
      let* client := ILevelClient.new config_ in
      let* isConnected := ILevelClient.testConnection client in
      ret (Serving {| config := config_; iLevelClient := client |})
  | _, _, _ => ret (Exited 1)
  end.

(* ===================================================================== *)
(** * 5. Vocabulary of the proofs                                          *)
(* ===================================================================== *)

(** ** Induction on JSON values: the items of an array and the values of an
    object's properties come with the property already proved. *)
Section json_induction.
Variable P : json -> Prop.
Hypothesis Hnull : P JNull.
Hypothesis Hbool : forall b, P (JBool b).
Hypothesis Hnumber : forall n, P (JNumber n).
Hypothesis Hstring : forall s, P (JString s).
Hypothesis Harray : forall items, Forall P items -> P (JArray items).
Hypothesis Hobject : forall props, Forall (fun kv => P kv.2) props -> P (JObject props).

Fixpoint json_ind (v : json) : P v :=
  match v with
  | JNull => Hnull
  | JBool b => Hbool b
  | JNumber n => Hnumber n
  | JString s => Hstring s
  | JArray items =>
      Harray items
        ((fix all (l : list json) : Forall P l :=
            match l with
            | [] => List.Forall_nil P
            | x :: l' => @List.Forall_cons _ P x l' (json_ind x) (all l')
            end) items)
  | JObject props =>
      Hobject props
        ((fix all (l : jobject) : Forall (fun kv => P kv.2) l :=
            match l with
            | [] => List.Forall_nil _
            | (k, x) :: l' =>
                @List.Forall_cons _ (fun kv => P kv.2) (k, x) l' (json_ind x) (all l')
            end) props)
  end.
End json_induction.

(** A string of JSON white space. *)
Fixpoint all_ws (s : string) : bool :=
  match s with
  | EmptyString => true
  | String c r => is_ws c && all_ws r
  end.

(** What may follow a printed number: anything but a digit, [.], [e] or
    [E]. *)
Definition number_end (r : string) : bool :=
  match r with
  | EmptyString => true
  | String c _ =>
      match digit_of_char c with
      | Some _ => false
      | None => negb (number_goes_on r)
      end
  end.

(** The line break and indentation [JSON.stringify] puts before an item,
    empty in the compact form. *)
Definition pad (gap n : nat) : string :=
  match gap with
  | O => EmptyString
  | _ => nl +:+ spaces n
  end.

(** One property of an object as [JSON.stringify] prints it. *)
Definition member (gap indent : nat) (kv : string * json) : string :=
  let (k, x) := kv in quote k +:+ colon gap +:+ stringify_at gap indent x.

(** Printing [v] at any indentation inside any text and reading it back
    gives [v] and the rest of the text. *)
Definition roundtrips (v : json) : Prop :=
  forall gap indent fuel w r,
    all_ws w = true -> number_end r = true ->
    (String.length (stringify_at gap indent v) <= fuel)%nat ->
    parse_value fuel (w +:+ stringify_at gap indent v +:+ r) = Some (v, r).

(* ===================================================================== *)
(** * 6. Concrete runs                                                     *)
(* ===================================================================== *)

(** The empty store with nothing sent yet. *)
Definition initial_state : State := {| heap := ∅; issued := [] |}.

(** An environment with the three required variables, and the server it
    starts when the remote end answers every request with an empty list. *)
Definition example_env : gmap string string :=
  <["ILEVEL_BASE_URL" := "https://sandapi.ilevelsolutions.com"]>
    (<["ILEVEL_USERNAME" := "analyst"]> (<["ILEVEL_PASSWORD" := "secret"]> ∅)).

Definition example_config : ILevelConfig :=
  {| baseUrl := "https://sandapi.ilevelsolutions.com";
     username := "analyst";
     password := "secret";
     isSandbox := defined false;
     apiVersion := absent |}.

Definition example_client : axios.Instance :=
  {| axios.baseURL := "https://sandapi.ilevelsolutions.com/api/v1";
     axios.auth := {| axios.username := "analyst"; axios.password := "secret" |};
     axios.headers := [("Content-Type", "application/json"); ("Accept", "application/json")];
     axios.timeout := 30000 |}.

Definition example_server : Server :=
  {| config := 1%positive;
     iLevelClient := {| ILevelClient.client := example_client;
                        ILevelClient.config := 2%positive |} |}.

(** The state of the example server once it serves: the caller's record at
    reference 1, the client's copy at reference 2, and the probe sent. *)
Definition example_probe : axios.Issued :=
  {| axios.via := example_client; axios.call := axios.Get "/users" None |}.

Definition example_serving_state : State :=
  {| heap := <[2%positive := ILevelClient.spread_over_default example_config]>
               (<[1%positive := example_config]> ∅);
     issued := [example_probe] |}.

(** The payload of the [get_user] scenario and its text as
    [JSON.stringify(payload, null, 2)] prints it. *)
Definition acme : json := JObject [("id", JString "123"); ("name", JString "Acme")].

Definition acme_text : string :=
  "{" +:+ nl
    +:+ "  " +:+ String dq "id" +:+ String dq ": " +:+ String dq "123" +:+ String dq ","
    +:+ nl
    +:+ "  " +:+ String dq "name" +:+ String dq ": " +:+ String dq "Acme" +:+ String dq EmptyString
    +:+ nl +:+ "}".

Definition user_123 : option jobject := Some [("userId", JString "123")].

Definition get_user_123 : axios.Issued :=
  {| axios.via := example_client; axios.call := axios.Get "/users/123" None |}.

(** Remote ends: one that knows user 123, one that answers every request
    with status 500 and a text body, one that answers 200 with a given
    payload. *)
Definition acme_remote : Remote :=
  fun rq =>
    match axios.call rq with
    | axios.Get "/users/123" None => axios.Responded 200 acme
    | _ => axios.Responded 200 (JArray [])
    end.

Definition failing_remote : Remote :=
  fun _ => axios.Responded 500 (JString "upstream failure").

Definition answering (payload : json) : Remote :=
  fun _ => axios.Responded 200 payload.

(** A substring, as a split of the whole. *)
Definition contains (part whole : string) : Prop :=
  exists before after, whole = before +:+ part +:+ after.

(** The client that a configuration record gives. *)
Definition client_of (c : ILevelConfig) : axios.Instance :=
  {| axios.baseURL :=
       baseUrl c +:+ "/api/"
         +:+ match apiVersion c with
             | absent => "v1"
             | undefined => "undefined"
             | defined v => v
             end;
     axios.auth := {| axios.username := username c; axios.password := password c |};
     axios.headers := [("Content-Type", "application/json"); ("Accept", "application/json")];
     axios.timeout := 30000 |}.

(** ** Vocabulary of the further properties *)

(** The tool call sends exactly the request [c] through the server's
    client, whatever it returns. *)
Definition sends (srv : Server) (tool : string) (args : option jobject)
    (remote : Remote) (st : State) (c : axios.Call) : Prop :=
  exists res,
    call_tool srv tool args remote st
    = Some (res, record_request st {| axios.via := ILevelClient.client (iLevelClient srv);
                                      axios.call := c |}).

(** The result of a run without its final state. *)
Definition outcome {A : Type} (r : option (Completion A * State)) : option (Completion A) :=
  fst <$> r.

(** The tools whose case destructures the argument bag. *)
Definition destructuring_tools : list string :=
  ["get_user"; "get_client"; "get_document"; "create_valuation"; "query_data";
   "delete_webhook"; "custom_request"].

(** The names an input schema declares and the names it requires. *)
Definition schema_properties (schema : json) : list string :=
  match schema with
  | JObject o =>
      match obj_get "properties" o with
      | Some (JObject props) => map fst props
      | _ => []
      end
  | _ => []
  end.

Definition schema_required (schema : json) : list string :=
  match schema with
  | JObject o =>
      match obj_get "required" o with
      | Some (JArray items) =>
          omap (fun x => match x with JString s => Some s | _ => None end) items
      | _ => []
      end
  | _ => []
  end.

(** The keys of the configuration snapshot for a record. *)
Definition snapshot_keys (c : ILevelConfig) : list string :=
  ["baseUrl"; "username"]
    ++ match isSandbox c with defined _ => ["isSandbox"] | _ => [] end
    ++ ["apiVersion"].

(** A reply that is no response at all. *)
Definition silent (r : axios.Reply) : bool :=
  match r with
  | axios.TimedOut | axios.NoResponse _ => true
  | _ => false
  end.


(** A record that carries [apiVersion] explicitly as [undefined]. *)
Definition undefined_version_config : ILevelConfig :=
  {| baseUrl := "https://clients.ilevelsolutions.com";
     username := "analyst";
     password := "secret";
     isSandbox := absent;
     apiVersion := undefined |}.

(* ===================================================================== *)
(** * 7. [JSON.parse] reads back what [JSON.stringify] prints              *)
(* ===================================================================== *)

(** ** Strings *)

Lemma sapp_cons (c : ascii) (s t : string) : String c s +:+ t = String c (s +:+ t).
Proof. reflexivity. Qed.

Lemma sapp_nil_l (s : string) : EmptyString +:+ s = s.
Proof. reflexivity. Qed.

Lemma sapp_nil_r (s : string) : s +:+ EmptyString = s.
Proof. induction s as [|c s IH]; [reflexivity|]. rewrite sapp_cons, IH. reflexivity. Qed.

Lemma sapp_assoc (a b c : string) : (a +:+ b) +:+ c = a +:+ (b +:+ c).
Proof. induction a as [|x a IH]; [reflexivity|]. rewrite !sapp_cons, IH. reflexivity. Qed.

Lemma slength_app (a b : string) :
  String.length (a +:+ b) = (String.length a + String.length b)%nat.
Proof. induction a as [|x a IH]; [reflexivity|]. rewrite sapp_cons. simpl. rewrite IH. reflexivity. Qed.

(** ** White space *)

Lemma skip_ws_app (w s : string) : all_ws w = true -> skip_ws (w +:+ s) = skip_ws s.
Proof.
  induction w as [|c w IH]; intros Hw; [reflexivity|].
  simpl in Hw. apply andb_true_iff in Hw as [Hc Hw].
  rewrite sapp_cons. simpl. rewrite Hc. auto.
Qed.

Lemma all_ws_app (a b : string) : all_ws a = true -> all_ws b = true -> all_ws (a +:+ b) = true.
Proof.
  induction a as [|c a IH]; intros Ha Hb; [exact Hb|].
  simpl in Ha. apply andb_true_iff in Ha as [Hc Ha].
  rewrite sapp_cons. simpl. rewrite Hc. auto.
Qed.

Lemma all_ws_spaces (n : nat) : all_ws (spaces n) = true.
Proof. induction n as [|n IH]; [reflexivity|exact IH]. Qed.

Lemma expect_hit (c : ascii) (w r : string) :
  all_ws w = true -> is_ws c = false -> expect c (w +:+ String c r) = Some r.
Proof.
  intros Hw Hc. unfold expect. rewrite skip_ws_app by exact Hw.
  simpl. rewrite Hc, Ascii.eqb_refl. reflexivity.
Qed.

Lemma expect_miss (c c' : ascii) (w r : string) :
  all_ws w = true -> is_ws c' = false -> c <> c' -> expect c (w +:+ String c' r) = None.
Proof.
  intros Hw Hc Hne. unfold expect. rewrite skip_ws_app by exact Hw.
  simpl. rewrite Hc. apply Ascii.eqb_neq in Hne. rewrite Hne. reflexivity.
Qed.

(** ** Numbers *)

Lemma read_digits_stop (r : string) :
  number_end r = true -> read_digits r = (Decimal.Nil, r).
Proof.
  destruct r as [|c r]; [reflexivity|]. simpl.
  destruct (digit_of_char c); [discriminate|reflexivity].
Qed.

Lemma read_digits_print (d : Decimal.uint) (r : string) :
  number_end r = true ->
  read_digits (NilEmpty.string_of_uint d +:+ r) = (d, r).
Proof.
  intros Hr. induction d; simpl NilEmpty.string_of_uint;
    rewrite ?sapp_cons; simpl; rewrite ?IHd; try reflexivity.
  apply read_digits_stop, Hr.
Qed.

Lemma to_uint_canonical (n : N) : Decimal.unorm (N.to_uint n) = N.to_uint n.
Proof.
  rewrite <- (DecimalN.Unsigned.of_to n) at 2.
  symmetry. apply DecimalN.Unsigned.to_of.
Qed.

Lemma leading_zero_unorm (d : Decimal.uint) : leading_zero (Decimal.unorm d) = false.
Proof.
  unfold Decimal.unorm.
  destruct (Decimal.nzhead d) eqn:E; try reflexivity.
  exfalso. exact (DecimalFacts.nzhead_nonzero _ _ E).
Qed.

Lemma parse_digits_print (n : N) (r : string) :
  number_end r = true ->
  parse_digits (string_of_N n +:+ r) = Some (n, r).
Proof.
  intros Hr. unfold parse_digits, string_of_N.
  rewrite read_digits_print by exact Hr.
  assert (Hz : leading_zero (N.to_uint n) = false).
  { rewrite <- to_uint_canonical. apply leading_zero_unorm. }
  assert (Hg : number_goes_on r = false).
  { destruct r as [|c r]; [reflexivity|]. simpl in Hr.
    destruct (digit_of_char c); [discriminate|].
    apply negb_true_iff in Hr. exact Hr. }
  assert (Hn : N.to_uint n <> Decimal.Nil).
  { rewrite <- to_uint_canonical. apply DecimalFacts.unorm_nonnil. }
  rewrite Hz, Hg, DecimalN.Unsigned.of_to.
  destruct (N.to_uint n); [contradiction|reflexivity..].
Qed.

Lemma string_of_N_head (n : N) :
  exists c rest, string_of_N n = String c rest /\ (exists d, digit_of_char c = Some d).
Proof.
  unfold string_of_N.
  assert (Hn : N.to_uint n <> Decimal.Nil).
  { rewrite <- to_uint_canonical. apply DecimalFacts.unorm_nonnil. }
  destruct (N.to_uint n); [contradiction|..]; simpl; eauto.
Qed.

Lemma parse_number_unsigned (m : N) (r : string) :
  safe_integer (Z.of_N m) = true -> number_end r = true ->
  parse_number (string_of_N m +:+ r) = Some (Z.of_N m, r).
Proof.
  intros Hs Hr.
  destruct (string_of_N_head m) as (c & rest & E & d & Hd).
  unfold parse_number.
  pose proof (parse_digits_print m r Hr) as Hp.
  rewrite E in Hp |- *. rewrite sapp_cons in Hp |- *.
  assert (c <> "-"%char) by (intros ->; discriminate).
  destruct c as [[] [] [] [] [] [] [] []]; try contradiction; try discriminate;
    rewrite Hp; simpl; rewrite Hs; reflexivity.
Qed.

Lemma parse_number_print (n : Z) (r : string) :
  safe_integer n = true -> number_end r = true ->
  parse_number (string_of_Z n +:+ r) = Some (n, r).
Proof.
  intros Hs Hr. destruct n as [|p|p]; simpl string_of_Z.
  - apply (parse_number_unsigned 0 r Hs Hr).
  - apply (parse_number_unsigned (N.pos p) r Hs Hr).
  - rewrite sapp_cons. unfold parse_number.
    rewrite (parse_digits_print (N.pos p) r Hr). simpl.
    change (Z.neg p) with (- Z.of_N (N.pos p))%Z in Hs. simpl in Hs. rewrite Hs.
    reflexivity.
Qed.

(** ** String literals *)

Lemma parse_chars_escape (c : ascii) (t : string) :
  parse_chars (escape_char c +:+ t) = cons_char c (parse_chars t).
Proof.
  destruct c as [[] [] [] [] [] [] [] []]; reflexivity.
Qed.

Lemma parse_chars_quote_body (s r : string) :
  parse_chars (quote_body s +:+ String dq r) = Some (s, r).
Proof.
  induction s as [|c s IH]; [reflexivity|].
  simpl quote_body. rewrite sapp_assoc, parse_chars_escape, IH. reflexivity.
Qed.

(** ** Objects *)

Lemma distinct_NoDup (keys : list string) : distinct keys = true <-> NoDup keys.
Proof.
  induction keys as [|k keys IH]; simpl.
  - split; [constructor|reflexivity].
  - rewrite andb_true_iff, negb_true_iff, NoDup_cons, IH.
    assert (existsb (String.eqb k) keys = false <-> k ∉ keys) as ->; [|tauto].
    rewrite <- not_true_iff_false, existsb_exists, list_elem_of_In.
    split; intros H.
    + intros Hin. apply H. exists k. split; [exact Hin|apply String.eqb_refl].
    + intros (x & Hin & Hx). apply String.eqb_eq in Hx. subst x. exact (H Hin).
Qed.

Lemma obj_set_fresh (k : string) (v : json) (o : jobject) :
  k ∉ map fst o -> obj_set k v o = o ++ [(k, v)].
Proof.
  induction o as [|[k' v'] o IH]; intros Hk; [reflexivity|].
  simpl in *. apply not_elem_of_cons in Hk as [Hne Hk].
  apply String.eqb_neq in Hne. rewrite Hne, IH by exact Hk. reflexivity.
Qed.

Lemma fold_obj_set (ms acc : jobject) :
  NoDup (map fst (acc ++ ms)) ->
  fold_left (fun o kv => obj_set kv.1 kv.2 o) ms acc = acc ++ ms.
Proof.
  revert acc. induction ms as [|[k v] ms IH]; intros acc Hnd; simpl.
  - rewrite app_nil_r. reflexivity.
  - assert (Hk : k ∉ map fst acc).
    { rewrite map_app in Hnd. apply NoDup_app in Hnd as (_ & Hd & _).
      intros Hin. apply (Hd k Hin). simpl. left. }
    rewrite obj_set_fresh by exact Hk.
    rewrite IH; rewrite <- app_assoc; [reflexivity|exact Hnd].
Qed.

Lemma object_of_members_distinct (ms : jobject) :
  distinct (map fst ms) = true -> object_of_members ms = ms.
Proof.
  intros Hd. apply distinct_NoDup in Hd. unfold object_of_members.
  rewrite fold_obj_set; [reflexivity|exact Hd].
Qed.

(** ** Printing, then parsing *)

Lemma all_ws_pad (gap n : nat) : all_ws (pad gap n) = true.
Proof. destruct gap; [reflexivity|]. apply all_ws_app; [reflexivity|apply all_ws_spaces]. Qed.

Create HintDb json_ws.
#[local] Hint Resolve all_ws_pad all_ws_spaces all_ws_app : json_ws.

Lemma wrap_eq (gap indent : nat) (o c : string) (part : string) (parts : list string) :
  wrap gap indent o c (part :: parts) =
  o +:+ pad gap (indent + gap)
    +:+ String.concat ("," +:+ pad gap (indent + gap)) (part :: parts)
    +:+ pad gap indent +:+ c.
Proof. destruct gap; reflexivity. Qed.

Lemma colon_eq (gap : nat) (t : string) :
  exists w, all_ws w = true /\ colon gap +:+ t = String ":"%char (w +:+ t).
Proof.
  destruct gap.
  - exists EmptyString. split; reflexivity.
  - exists " ". split; reflexivity.
Qed.

Lemma stringify_head (gap indent : nat) (v : json) :
  exists c rest,
    stringify_at gap indent v = String c rest
    /\ is_ws c = false /\ c <> "]"%char /\ c <> "}"%char.
Proof.
  destruct v as [|[]|n|s|items|props];
    try (eexists _, _; split; [reflexivity|]; repeat split; discriminate).
  - assert (H : exists c rest, string_of_Z n = String c rest
                /\ (c = "-"%char \/ exists d, digit_of_char c = Some d)).
    { destruct n as [|p|p]; simpl.
      - eexists _, _; split; [reflexivity|]. right. eexists; reflexivity.
      - destruct (string_of_N_head (N.pos p)) as (c & rest & E & Hd). eauto.
      - eexists _, _; split; [reflexivity|]. left. reflexivity. }
    destruct H as (c & rest & E & Hc). exists c, rest. split; [exact E|].
    destruct Hc as [->|[d Hd]]; [repeat split; discriminate|].
    destruct c as [[] [] [] [] [] [] [] []]; try discriminate; repeat split; discriminate.
  - destruct items as [|x items]; cbn [stringify_at map]; rewrite ?wrap_eq;
      (eexists _, _; split; [reflexivity|]; repeat split; discriminate).
  - destruct props as [|x props]; cbn [stringify_at map]; rewrite ?wrap_eq;
      (eexists _, _; split; [reflexivity|]; repeat split; discriminate).
Qed.

Lemma number_end_ws (w : string) (c : ascii) (r : string) :
  all_ws w = true -> number_end (String c r) = true ->
  number_end (w +:+ String c r) = true.
Proof.
  destruct w as [|c' w]; intros Hw Hc; [exact Hc|].
  simpl in Hw. apply andb_true_iff in Hw as [Hc' _].
  rewrite sapp_cons. destruct c' as [[] [] [] [] [] [] [] []]; try discriminate; reflexivity.
Qed.

Lemma parse_elements_print (gap indent : nat) (items : list json) :
  items <> [] -> Forall roundtrips items ->
  forall fuel w p p' r,
    all_ws w = true -> all_ws p = true -> all_ws p' = true ->
    (String.length (String.concat ("," +:+ p) (map (stringify_at gap indent) items)) < fuel)%nat ->
    parse_elements fuel
      (w +:+ String.concat ("," +:+ p) (map (stringify_at gap indent) items)
         +:+ p' +:+ String "]"%char r) = Some (items, r).
Proof.
  intros Hne Hall. induction Hall as [|v rest Hv Hrest IH]; [contradiction|].
  intros fuel w p p' r Hw Hp Hp' Hfuel.
  destruct fuel as [|f]; [lia|].
  destruct rest as [|v' rest'].
  - simpl in *. rewrite Hv; [|exact Hw|apply number_end_ws; [exact Hp'|reflexivity]|lia].
    simpl. rewrite expect_miss, expect_hit; try reflexivity; try exact Hp'; discriminate.
  - change (String.concat ("," +:+ p) (map (stringify_at gap indent) (v :: v' :: rest')))
      with (stringify_at gap indent v +:+ ("," +:+ p)
              +:+ String.concat ("," +:+ p) (map (stringify_at gap indent) (v' :: rest'))) in *.
    specialize (IH ltac:(discriminate) f p p p' r Hp Hp Hp').
    remember (String.concat ("," +:+ p) (map (stringify_at gap indent) (v' :: rest'))) as tl.
    rewrite !slength_app in Hfuel. simpl String.length in Hfuel.
    rewrite !sapp_assoc. rewrite sapp_cons, sapp_nil_l.
    simpl. rewrite Hv; [|exact Hw|reflexivity|lia].
    simpl. rewrite IH; [reflexivity|].
    change (String.length ",") with 1%nat in Hfuel. lia.
Qed.

Lemma quote_app (k t : string) :
  quote k +:+ t = String dq (quote_body k +:+ String dq t).
Proof. unfold quote. rewrite sapp_cons, sapp_assoc, sapp_cons, sapp_nil_l. reflexivity. Qed.

Lemma parse_member_print {B : Type} (K : string -> json -> string -> option B)
    (gap indent f : nat) (k : string) (x : json) (w t : string) :
  roundtrips x -> all_ws w = true -> number_end t = true ->
  (String.length (member gap indent (k, x)) <= f)%nat ->
  (r ← expect dq (w +:+ member gap indent (k, x) +:+ t);
   '(k', r1) ← parse_chars r;
   r2 ← expect ":" r1;
   '(v, r3) ← parse_value f r2;
   K k' v r3) = K k x t.
Proof.
  intros Hx Hw Ht Hf. unfold member in *.
  rewrite !sapp_assoc, quote_app.
  rewrite expect_hit by (exact Hw || reflexivity). simpl.
  destruct (colon_eq gap (stringify_at gap indent x +:+ t)) as (w' & Hw' & E).
  rewrite E, parse_chars_quote_body. simpl.
  rewrite Hx; [reflexivity|exact Hw'|exact Ht|].
  rewrite !slength_app in Hf. lia.
Qed.

Lemma parse_members_print (gap indent : nat) (props : jobject) :
  props <> [] -> Forall (fun kv => roundtrips kv.2) props ->
  forall fuel w p p' r,
    all_ws w = true -> all_ws p = true -> all_ws p' = true ->
    (String.length (String.concat ("," +:+ p) (map (member gap indent) props)) < fuel)%nat ->
    parse_members fuel
      (w +:+ String.concat ("," +:+ p) (map (member gap indent) props)
         +:+ p' +:+ String "}"%char r) = Some (props, r).
Proof.
  intros Hne Hall. induction Hall as [|[k x] rest Hx Hrest IH]; [contradiction|].
  intros fuel w p p' r Hw Hp Hp' Hfuel.
  destruct fuel as [|f]; [lia|].
  destruct rest as [|kv' rest'].
  - cbn [map String.concat] in *.
    cbn [parse_members].
    rewrite (parse_member_print
               (fun k v r3 => match expect "," r3 with
                              | Some r4 => '(ms, r5) ← parse_members f r4; Some ((k, v) :: ms, r5)
                              | None => r4 ← expect "}" r3; Some ([(k, v)], r4)
                              end));
      [|exact Hx|exact Hw|apply number_end_ws; [exact Hp'|reflexivity]|lia].
    rewrite expect_miss, expect_hit; try reflexivity; try exact Hp'; discriminate.
  - change (String.concat ("," +:+ p) (map (member gap indent) ((k, x) :: kv' :: rest')))
      with (member gap indent (k, x) +:+ ("," +:+ p)
              +:+ String.concat ("," +:+ p) (map (member gap indent) (kv' :: rest'))) in *.
    specialize (IH ltac:(discriminate) f p p p' r Hp Hp Hp').
    remember (String.concat ("," +:+ p) (map (member gap indent) (kv' :: rest'))) as tl.
    rewrite !slength_app in Hfuel.
    rewrite !sapp_assoc. rewrite sapp_cons, sapp_nil_l.
    cbn [parse_members].
    rewrite (parse_member_print
               (fun k v r3 => match expect "," r3 with
                              | Some r4 => '(ms, r5) ← parse_members f r4; Some ((k, v) :: ms, r5)
                              | None => r4 ← expect "}" r3; Some ([(k, v)], r4)
                              end));
      [|exact Hx|exact Hw|reflexivity|lia].
    simpl. rewrite IH; [reflexivity|].
    change (String.length ",") with 1%nat in Hfuel. lia.
Qed.

Lemma string_of_Z_head (n : Z) :
  exists c rest, string_of_Z n = String c rest
                 /\ (c = "-"%char \/ exists d, digit_of_char c = Some d).
Proof.
  destruct n as [|p|p]; simpl.
  - eexists _, _; split; [reflexivity|]. right. eexists; reflexivity.
  - destruct (string_of_N_head (N.pos p)) as (c & rest & E & Hd). eauto.
  - eexists _, _; split; [reflexivity|]. left. reflexivity.
Qed.

Lemma parse_value_number (f : nat) (w : string) (c : ascii) (t : string) :
  all_ws w = true ->
  (c = "-"%char \/ exists d, digit_of_char c = Some d) ->
  parse_value (S f) (w +:+ String c t) =
  '(n, r') ← parse_number (String c t); Some (JNumber n, r').
Proof.
  intros Hw Hc. simpl. rewrite skip_ws_app by exact Hw.
  destruct Hc as [->|[d Hd]]; [reflexivity|].
  destruct c as [[] [] [] [] [] [] [] []]; try discriminate; reflexivity.
Qed.

Lemma Forall_roundtrips (items : list json) :
  Forall (fun v => json_wf v = true -> roundtrips v) items ->
  forallb json_wf items = true -> Forall roundtrips items.
Proof.
  induction 1 as [|v items Hv _ IH]; intros Hwf; [constructor|].
  simpl in Hwf. apply andb_true_iff in Hwf as [H1 H2].
  constructor; auto.
Qed.

Lemma Forall_roundtrips_props (props : jobject) :
  Forall (fun kv => json_wf kv.2 = true -> roundtrips kv.2) props ->
  forallb (fun kv => let (_, x) := kv : string * json in json_wf x) props = true ->
  Forall (fun kv => roundtrips kv.2) props.
Proof.
  induction 1 as [|[k v] props Hv _ IH]; intros Hwf; [constructor|].
  simpl in Hwf. apply andb_true_iff in Hwf as [H1 H2].
  constructor; auto.
Qed.

Lemma stringify_nonempty (gap indent : nat) (v : json) :
  (1 <= String.length (stringify_at gap indent v))%nat.
Proof.
  destruct (stringify_head gap indent v) as (c & rest & E & _).
  rewrite E. simpl. lia.
Qed.

Lemma stringify_array (gap indent : nat) (items : list json) :
  items <> [] ->
  stringify_at gap indent (JArray items) =
  "[" +:+ pad gap (indent + gap)
    +:+ String.concat ("," +:+ pad gap (indent + gap))
          (map (stringify_at gap (indent + gap)) items)
    +:+ pad gap indent +:+ "]".
Proof.
  destruct items as [|x items]; [contradiction|]. intros _.
  cbn [stringify_at map]. apply wrap_eq.
Qed.

Lemma stringify_object (gap indent : nat) (props : jobject) :
  props <> [] ->
  stringify_at gap indent (JObject props) =
  "{" +:+ pad gap (indent + gap)
    +:+ String.concat ("," +:+ pad gap (indent + gap))
          (map (member gap (indent + gap)) props)
    +:+ pad gap indent +:+ "}".
Proof.
  destruct props as [|x props]; [contradiction|]. intros _.
  cbn [stringify_at map]. apply wrap_eq.
Qed.

Theorem parse_stringify (v : json) : json_wf v = true -> roundtrips v.
Proof.
  induction v as [|b|n|s|items IH|props IH] using json_ind;
    intros Hwf gap indent fuel w r Hw Hr Hfuel;
    (destruct fuel as [|f];
     [match type of Hfuel with
      | (String.length (stringify_at _ _ ?x) <= _)%nat =>
          pose proof (stringify_nonempty gap indent x); lia
      end|]).
  - simpl stringify_at. rewrite !sapp_cons, sapp_nil_l.
    simpl. rewrite skip_ws_app by exact Hw. simpl. reflexivity.
  - destruct b; simpl stringify_at; rewrite !sapp_cons, sapp_nil_l;
      simpl; rewrite skip_ws_app by exact Hw; simpl; reflexivity.
  - simpl stringify_at. simpl in Hwf.
    destruct (string_of_Z_head n) as (c & rest & E & Hc).
    pose proof (parse_number_print n r Hwf Hr) as Hp.
    rewrite E in Hp |- *. rewrite sapp_cons in Hp |- *.
    rewrite parse_value_number by assumption. rewrite Hp. reflexivity.
  - simpl stringify_at. rewrite quote_app.
    simpl. rewrite skip_ws_app by exact Hw. simpl.
    rewrite parse_chars_quote_body. reflexivity.
  - simpl in Hwf. pose proof (Forall_roundtrips items IH Hwf) as Hall.
    destruct (decide (items = [])) as [->|Hl].
    + simpl stringify_at. unfold wrap. rewrite !sapp_cons, sapp_nil_l.
      simpl. rewrite skip_ws_app by exact Hw. simpl. reflexivity.
    + rewrite stringify_array in Hfuel |- * by exact Hl.
      rewrite !slength_app in Hfuel. cbn [String.length] in Hfuel.
      rewrite !sapp_assoc, sapp_cons, sapp_nil_l.
      change ("]" +:+ r) with (String "]"%char r).
      simpl parse_value. rewrite skip_ws_app by exact Hw.
      cbn [skip_ws is_ws].
      assert (Hmiss : forall t, expect "]"
                (pad gap (indent + gap)
                   +:+ String.concat ("," +:+ pad gap (indent + gap))
                         (map (stringify_at gap (indent + gap)) items) +:+ t) = None).
      { intros t. destruct items as [|x items]; [contradiction|].
        destruct (stringify_head gap (indent + gap) x) as (c & rest & E & Hc & Hn & _).
        cbn [map String.concat]. destruct (map _ items);
          rewrite E, ?sapp_assoc, sapp_cons; apply expect_miss;
          auto with json_ws. }
      rewrite Hmiss.
      rewrite parse_elements_print; auto with json_ws. lia.
  - simpl in Hwf. apply andb_true_iff in Hwf as [Hd Hwf].
    pose proof (Forall_roundtrips_props props IH Hwf) as Hall.
    destruct (decide (props = [])) as [->|Hl].
    + simpl stringify_at. unfold wrap. rewrite !sapp_cons, sapp_nil_l.
      simpl. rewrite skip_ws_app by exact Hw. simpl. reflexivity.
    + rewrite stringify_object in Hfuel |- * by exact Hl.
      rewrite !slength_app in Hfuel. cbn [String.length] in Hfuel.
      rewrite !sapp_assoc, sapp_cons, sapp_nil_l.
      change ("}" +:+ r) with (String "}"%char r).
      simpl parse_value. rewrite skip_ws_app by exact Hw.
      cbn [skip_ws is_ws].
      assert (Hmiss : forall t, expect "}"
                (pad gap (indent + gap)
                   +:+ String.concat ("," +:+ pad gap (indent + gap))
                         (map (member gap (indent + gap)) props) +:+ t) = None).
      { intros t. destruct props as [|[k x] props]; [contradiction|].
        cbn [map String.concat].
        destruct (map _ props); unfold member;
          rewrite ?sapp_assoc, quote_app; apply expect_miss;
          auto with json_ws; discriminate. }
      rewrite Hmiss.
      rewrite parse_members_print; auto with json_ws; [|lia].
      simpl. rewrite object_of_members_distinct by exact Hd. reflexivity.
Qed.

(** [JSON.parse(JSON.stringify(v, null, space))] is [v]. *)
Theorem JSON_parse_stringify (v : json) (space : nat) :
  json_wf v = true -> JSON_parse (JSON_stringify v space) = Some v.
Proof.
  intros Hwf. unfold JSON_parse, JSON_stringify.
  pose proof (parse_stringify v Hwf (Nat.min space 10) 0%nat
                (S (String.length (stringify_at (Nat.min space 10) 0 v)))
                EmptyString EmptyString eq_refl eq_refl) as H.
  rewrite sapp_nil_l, sapp_nil_r in H. rewrite H by lia. reflexivity.
Qed.

(* ===================================================================== *)
(** * 8. How the client and the server run *)
(* ===================================================================== *)

(** The state after one more request. *)
Lemma axios_call_run (inst : axios.Instance) (c : axios.Call) (remote : Remote) (st : State) :
  axios_call inst c remote st =
  Some (axios_settle inst (remote {| axios.via := inst; axios.call := c |}),
        record_request st {| axios.via := inst; axios.call := c |}).
Proof. reflexivity. Qed.

Lemma testConnection_run (this : ILevelClient.t) (remote : Remote) (st : State) :
  let rq := {| axios.via := ILevelClient.client this; axios.call := axios.Get "/users" None |} in
  ILevelClient.testConnection this remote st =
  Some (Normal match axios_settle (ILevelClient.client this) (remote rq) with
               | Normal _ => true
               | Throw _ => false
               end, record_request st rq).
Proof.
  cbv zeta. unfold ILevelClient.testConnection, try_catch, bind, ret.
  rewrite axios_call_run. destruct (axios_settle _ _); reflexivity.
Qed.

Lemma new_run (l : loc) (c : ILevelConfig) (remote : Remote) (st : State) :
  heap st !! l = Some c ->
  ILevelClient.new l remote st =
  Some (Normal {| ILevelClient.client := client_of c;
                  ILevelClient.config := fresh (dom (heap st)) |},
        {| heap := <[fresh (dom (heap st)) := ILevelClient.spread_over_default c]> (heap st);
           issued := issued st |}).
Proof.
  intros H. unfold ILevelClient.new, bind, deref, alloc, ret. rewrite H.
  unfold client_of, axios.create. destruct c as [b u p s [| |v]]; reflexivity.
Qed.

Lemma fresh_not_allocated (h : gmap loc ILevelConfig) : h !! fresh (dom h) = None.
Proof. apply not_elem_of_dom. apply is_fresh. Qed.

Lemma startup_serving (env : gmap string string) (remote : Remote) (st : State)
    (srv : Server) (st1 : State) :
  startup env remote st = Some (Normal (Serving srv), st1) ->
  exists base user pass,
    let given := {| baseUrl := base; username := user; password := pass;
                    isSandbox := defined (ILEVEL_SANDBOX env); apiVersion := absent |} in
    ILEVEL_BASE_URL env = Some base /\ ILEVEL_USERNAME env = Some user
    /\ ILEVEL_PASSWORD env = Some pass
    /\ ILevelClient.client (iLevelClient srv) = client_of given
    /\ heap st1 !! config srv = Some given
    /\ issued st1 = issued st ++ [ {| axios.via := client_of given;
                                      axios.call := axios.Get "/users" None |} ].
Proof.
  unfold startup.
  destruct (ILEVEL_BASE_URL env) as [[|c1 b]|] eqn:Eb; try discriminate;
  destruct (ILEVEL_USERNAME env) as [[|c2 u]|] eqn:Eu; try discriminate;
  destruct (ILEVEL_PASSWORD env) as [[|c3 p]|] eqn:Ep; try discriminate.
  cbn [truthy]. unfold bind at 1. unfold alloc at 1.
  set (given := {| baseUrl := String c1 b |}).
  set (l := fresh (dom (heap st))).
  unfold bind at 1.
  rewrite (new_run l given) by (apply lookup_insert_eq).
  unfold bind. rewrite testConnection_run. unfold ret. cbn.
  intros [= <- <-]. exists (String c1 b), (String c2 u), (String c3 p).
  cbn. repeat split; try reflexivity.
  rewrite lookup_insert_ne; [apply lookup_insert_eq|].
  intros E. pose proof (fresh_not_allocated (<[l:=given]> (heap st))) as Hf.
  rewrite E, lookup_insert_eq in Hf. discriminate.
Qed.

Lemma switch_None (labels : list (string * Case)) (tool : string) :
  switch labels tool = None <-> tool ∉ map fst labels.
Proof.
  induction labels as [|[l c] labels IH]; simpl.
  - split; [intros _; apply not_elem_of_nil|reflexivity].
  - rewrite not_elem_of_cons. destruct (String.eqb_spec tool l) as [->|Hne].
    + split; [discriminate|intros [H _]; contradiction].
    + rewrite IH. tauto.
Qed.

Lemma switch_test_connection (tool : string) :
  switch case_labels tool = Some test_connection <-> tool = "test_connection".
Proof.
  split; [|intros ->; reflexivity].
  unfold case_labels. cbn [switch].
  destruct (String.eqb_spec tool "test_connection") as [->|_]; [reflexivity|].
  repeat (match goal with |- context [String.eqb tool ?l] => destruct (String.eqb tool l) end;
          try discriminate).
Qed.

(** Every case of the switch either fails on its arguments before anything
    is sent, or sends exactly one request; its result then depends on the
    settled reply alone.  Only [test_connection] turns a failed request into
    a result. *)
Lemma run_case_cases (srv : Server) (c : Case) (args : option jobject)
    (remote : Remote) (st : State) :
  (exists m, run_case srv c args remote st = Some (Throw (TypeError m), st))
  \/ (exists call_,
        let rq := {| axios.via := ILevelClient.client (iLevelClient srv);
                     axios.call := call_ |} in
        run_case srv c args remote st =
        Some (match axios_settle (ILevelClient.client (iLevelClient srv)) (remote rq) with
              | Normal response =>
                  Normal (match c with
                          | test_connection => formatResponse (connection_report true)
                          | _ => formatResponse (data response)
                          end)
              | Throw e =>
                  match c with
                  | test_connection => Normal (formatResponse (connection_report false))
                  | _ => Throw e
                  end
              end, record_request st rq)).
Proof.
  destruct c, args as [o|].
  all: try (left; eexists; reflexivity).
  all: right; eexists; cbv zeta;
    unfold run_case, destructure, ILevelClient.testConnection, ILevelClient.getUsers,
      ILevelClient.getUser, ILevelClient.getClients, ILevelClient.getClient,
      ILevelClient.getPortfolios, ILevelClient.getAssets, ILevelClient.getFunds,
      ILevelClient.getInvestments, ILevelClient.getDocuments, ILevelClient.getDocument,
      ILevelClient.getValuations, ILevelClient.createValuation,
      ILevelClient.getCalculations, ILevelClient.queryData, ILevelClient.getWebhooks,
      ILevelClient.createWebhook, ILevelClient.deleteWebhook, ILevelClient.request,
      bind, try_catch, ret;
    rewrite axios_call_run;
    match goal with
    | |- context [axios_settle _ (_ {| axios.via := _; axios.call := ?c |})] =>
        tryif is_evar c then fail else instantiate (1 := c)
    end;
    destruct (axios_settle _ _); reflexivity.
Qed.

Lemma issued_grows (st : State) (rq : axios.Issued) : issued st <> issued st ++ [rq].
Proof.
  intros E. apply (f_equal length) in E. rewrite length_app in E. simpl in E. lia.
Qed.

(** [handleError] throws an internal error whatever it is given, and does
    nothing else. *)
Lemma handleError_throws {A : Type} (e : JsError) (remote : Remote) (st : State) :
  exists message,
    @handleError A e remote st = Some (Throw (McpError InternalError message), st).
Proof.
  unfold handleError.
  destruct (error_response e); [|destruct (error_request e)]; eexists; reflexivity.
Qed.

Lemma handleError_state {A : Type} (e : JsError) (remote : Remote) (st : State)
    (res : Completion A) (st' : State) :
  handleError e remote st = Some (res, st') -> st' = st.
Proof.
  destruct (@handleError_throws A e remote st) as [m ->]. congruence.
Qed.

(** A run of [handleError] in the hypothesis [H] ends in the state it
    started from. *)
Ltac same_state H := apply handleError_state in H; exact H.

(** Every request a tool call makes goes through the server's client. *)
Lemma call_tool_requests (srv : Server) (tool : string) (args : option jobject)
    (remote : Remote) (st : State) (res : Completion CallToolResult) (st' : State) :
  call_tool srv tool args remote st = Some (res, st') ->
  heap st' = heap st
  /\ (issued st' = issued st
      \/ exists call_,
           issued st' = issued st ++ [ {| axios.via := ILevelClient.client (iLevelClient srv);
                                          axios.call := call_ |} ]).
Proof.
  unfold call_tool, try_catch. destruct (switch case_labels tool) as [c|].
  - destruct (run_case_cases srv c args remote st) as [[m ->]|[call_ ->]].
    + intros [= <- <-]. split; [reflexivity|]. left. reflexivity.
    + cbv zeta. intros H. assert (st' = record_request st
        {| axios.via := ILevelClient.client (iLevelClient srv); axios.call := call_ |}) as ->.
      { destruct (axios_settle _ _) as [r|e]; [congruence|].
        destruct c; first [injection H as _ <-; reflexivity|same_state H]. }
      split; [reflexivity|]. right. exists call_. reflexivity.
  - intros [= <- <-]. split; [reflexivity|]. left. reflexivity.
Qed.

(** What a tool call that made a request returns: the request is the one
    the case planned, and the result is read off the settled reply. *)
Lemma call_tool_after_request (srv : Server) (tool : string) (args : option jobject)
    (remote : Remote) (st : State) (res : Completion CallToolResult) (st' : State)
    (rq : axios.Issued) :
  call_tool srv tool args remote st = Some (res, st') ->
  issued st' = issued st ++ [rq] ->
  exists c,
    switch case_labels tool = Some c
    /\ axios.via rq = ILevelClient.client (iLevelClient srv)
    /\ match axios_settle (ILevelClient.client (iLevelClient srv)) (remote rq) with
       | Normal response =>
           res = Normal (match c with
                         | test_connection => formatResponse (connection_report true)
                         | _ => formatResponse (data response)
                         end)
       | Throw e =>
           match c with
           | test_connection => res = Normal (formatResponse (connection_report false))
           | _ => handleError e remote st' = Some (res, st')
           end
       end.
Proof.
  unfold call_tool, try_catch. destruct (switch case_labels tool) as [c|].
  - destruct (run_case_cases srv c args remote st) as [[m ->]|[call_ ->]].
    + intros [= <- <-] E. destruct (issued_grows _ _ E).
    + cbv zeta. intros H E. exists c. split; [reflexivity|].
      set (rq0 := {| axios.via := ILevelClient.client (iLevelClient srv);
                     axios.call := call_ |}) in *.
      assert (Hst : st' = record_request st rq0).
      { destruct (axios_settle _ (remote rq0)) as [r|e]; [congruence|].
        destruct c; first [injection H as _ <-; reflexivity|same_state H]. }
      assert (rq = rq0) as ->.
      { rewrite Hst in E. cbn in E. apply app_inv_head in E. congruence. }
      split; [reflexivity|]. subst st'.
      destruct (axios_settle _ (remote rq0)) as [r|e].
      * injection H as <-. reflexivity.
      * destruct c; first [exact H|injection H as <-; reflexivity].
  - intros [= <- <-] E. destruct (issued_grows _ _ E).
Qed.

Lemma rev_app_app (a b acc : string) :
  String.rev_app (a +:+ b) acc = String.rev_app b (String.rev_app a acc).
Proof.
  revert acc. induction a as [|c a IH]; intros acc; [reflexivity|].
  rewrite sapp_cons. simpl. apply IH.
Qed.

Lemma combineURLs_api_v1 (base path : string) :
  axios.combineURLs (base +:+ "/api/v1") (String "/" (String "u" path))
  = base +:+ "/api/v1/" +:+ String "u" path.
Proof.
  unfold axios.combineURLs, axios.combineURLs_strip_trailing, String.rev.
  rewrite rev_app_app. cbn [String.rev_app axios.combineURLs_strip_leading].
  rewrite !sapp_assoc. reflexivity.
Qed.

Lemma contains_intro (before part after : string) :
  contains part (before +:+ part +:+ after).
Proof. exists before, after. reflexivity. Qed.

Example example_server_starts :
  startup example_env (answering (JArray [])) initial_state
  = Some (Normal (Serving example_server), example_serving_state).
Proof. vm_compute. reflexivity. Qed.

Example acme_text_is_pretty_printed : JSON_stringify acme 2 = acme_text.
Proof. reflexivity. Qed.

(* ===================================================================== *)
(** * 9. The properties of the specification *)
(* ===================================================================== *)

(** C1 (the code departs from the claim): a tool name outside the catalog
    takes the [default] branch, which throws a method-not-found error inside
    the [try]; the [catch] hands it to [handleError], which finds neither a
    response nor a request on it and throws an internal error instead.  The
    caller gets the internal-error code, with the method-not-found text
    inside the message. *)
Theorem unknown_tool_surfaces_as_internal_error
    (srv : Server) (tool : string) (args : option jobject) (remote : Remote) (st : State) :
  tool ∉ map name tools ->
  (call_tool srv tool args remote st =
     Some (Throw (McpError InternalError
                    ("MCP error -32603: Request failed: MCP error -32601: Unknown tool: " +:+ tool)),
           st))
  /\ InternalError <> MethodNotFound.
Proof.
  intros Hout. split; [|discriminate].
  change (map name tools) with (map fst case_labels) in Hout.
  apply switch_None in Hout.
  unfold call_tool, try_catch. rewrite Hout. reflexivity.
Qed.

Lemma unknown_tool_surfaces_as_internal_error_witness :
  ("no_such_tool" ∉ map name tools)
  /\ (call_tool example_server "no_such_tool" None (fun _ => axios.TimedOut) example_serving_state =
      Some (Throw (McpError InternalError
                     "MCP error -32603: Request failed: MCP error -32601: Unknown tool: no_such_tool"),
            example_serving_state)).
Proof.
  assert (H : "no_such_tool" ∉ map name tools).
  { apply (proj1 (switch_None case_labels "no_such_tool")). reflexivity. }
  split; [exact H|].
  exact (proj1 (unknown_tool_surfaces_as_internal_error
                  example_server "no_such_tool" None (fun _ => axios.TimedOut) example_serving_state H)).
Defined.

(** C2: on the server that start-up builds from base URL [base], calling
    [get_user] with [{userId: "123"}] sends one request, [GET
    base/api/v1/users/123]; when the answer is 200 with the body
    [{"id":"123","name":"Acme"}], the result is one text item holding that
    payload printed with an indentation of two spaces. *)
Theorem get_user_scenario
    (env : gmap string string) (remote0 : Remote) (st0 : State) (srv : Server) (st1 : State)
    (base : string) (remote : Remote) (st : State) :
  startup env remote0 st0 = Some (Normal (Serving srv), st1) ->
  ILEVEL_BASE_URL env = Some base ->
  let rq := {| axios.via := ILevelClient.client (iLevelClient srv);
               axios.call := axios.Get "/users/123" None |} in
  remote rq = axios.Responded 200 acme ->
  call_tool srv "get_user" user_123 remote st
  = Some (Normal {| content := [ {| type := "text"; text := acme_text |} ] |},
          record_request st rq)
  /\ axios.request_line rq = Some ("GET", base +:+ "/api/v1/users/123")
  /\ JSON_parse acme_text = Some acme.
Proof.
  intros Hstart Hbase rq Hreply.
  apply startup_serving in Hstart as (base' & user & pass & Hb & _ & _ & Hclient & _).
  cbv zeta in Hclient. rewrite Hbase in Hb. injection Hb as <-.
  split; [|split].
  - unfold call_tool, try_catch. cbn [switch case_labels String.eqb Ascii.eqb Bool.eqb].
    unfold run_case, user_123, destructure, ILevelClient.getUser, bind, ret.
    cbn [obj_get String.eqb Ascii.eqb Bool.eqb ToString ToString_json].
    rewrite axios_call_run. change ("/users/" +:+ "123") with "/users/123".
    fold rq. rewrite Hreply. reflexivity.
  - unfold axios.request_line, rq. cbn [axios.call axios.via]. rewrite Hclient.
    cbn [client_of axios.baseURL apiVersion baseUrl].
    change (base +:+ "/api/" +:+ "v1") with (base +:+ "/api/v1").
    rewrite (combineURLs_api_v1 base "sers/123"). reflexivity.
  - reflexivity.
Qed.

Lemma get_user_scenario_witness :
  startup example_env (answering (JArray [])) initial_state
  = Some (Normal (Serving example_server), example_serving_state)
  /\ ILEVEL_BASE_URL example_env = Some "https://sandapi.ilevelsolutions.com"
  /\ acme_remote get_user_123 = axios.Responded 200 acme
  /\ call_tool example_server "get_user" user_123 acme_remote example_serving_state
     = Some (Normal {| content := [ {| type := "text"; text := acme_text |} ] |},
             record_request example_serving_state get_user_123)
  /\ axios.request_line get_user_123
     = Some ("GET", "https://sandapi.ilevelsolutions.com/api/v1/users/123").
Proof.
  assert (H1 : startup example_env (answering (JArray [])) initial_state
               = Some (Normal (Serving example_server), example_serving_state))
    by (vm_compute; reflexivity).
  assert (H2 : ILEVEL_BASE_URL example_env = Some "https://sandapi.ilevelsolutions.com")
    by reflexivity.
  assert (H3 : acme_remote get_user_123 = axios.Responded 200 acme) by reflexivity.
  destruct (get_user_scenario example_env (answering (JArray [])) initial_state
              example_server example_serving_state _ acme_remote example_serving_state
              H1 H2 H3) as (Hcall & Hline & _).
  repeat split; assumption.
Defined.

(** C3 as the spec states it fails: [test_connection] meets a response with
    status 500 and returns a normal result that reports [connected: false];
    no error reaches the caller. *)
Lemma test_connection_swallows_remote_error :
  failing_remote example_probe = axios.Responded 500 (JString "upstream failure")
  /\ axios.validateStatus 500 = false
  /\ call_tool example_server "test_connection" None failing_remote example_serving_state
     = Some (Normal (formatResponse (connection_report false)),
             record_request example_serving_state example_probe)
  /\ ~ (exists e st', call_tool example_server "test_connection" None failing_remote example_serving_state
                      = Some (Throw e, st')).
Proof.
  split; [reflexivity|]. split; [reflexivity|]. split; [reflexivity|].
  intros (e & st' & H). vm_compute in H. discriminate.
Qed.

(** C3, amended: when the request of a tool call is answered with a status
    outside 2xx, every tool but [test_connection] throws an internal error
    whose message is [iLevel API error: <status> - <body>], with the status
    in decimal and the body as compact JSON; [test_connection] returns the
    report [connected: false] instead. *)
Theorem remote_error_carries_status_and_body
    (srv : Server) (tool : string) (args : option jobject) (remote : Remote) (st : State)
    (res : Completion CallToolResult) (st' : State) (rq : axios.Issued)
    (status_ : Z) (body : json) :
  call_tool srv tool args remote st = Some (res, st') ->
  issued st' = issued st ++ [rq] ->
  remote rq = axios.Responded status_ body ->
  axios.validateStatus status_ = false ->
  (tool = "test_connection" -> res = Normal (formatResponse (connection_report false)))
  /\ (tool <> "test_connection" ->
      exists message,
        res = Throw (McpError InternalError message)
        /\ message = "MCP error -32603: iLevel API error: "
                       +:+ string_of_Z status_ +:+ " - " +:+ JSON_stringify body 0
        /\ contains (string_of_Z status_) message
        /\ contains (JSON_stringify body 0) message).
Proof.
  intros Hcall Hissued Hreply Hstatus.
  destruct (call_tool_after_request _ _ _ _ _ _ _ _ Hcall Hissued) as (c & Hc & _ & Hres).
  rewrite Hreply in Hres. cbn [axios_settle] in Hres. rewrite Hstatus in Hres.
  split.
  - intros Htool. apply switch_test_connection in Htool.
    rewrite Htool in Hc. injection Hc as <-. exact Hres.
  - intros Htool.
    assert (Hc' : c <> test_connection).
    { intros ->. apply Htool, switch_test_connection, Hc. }
    assert (Hh : handleError
                   (AxiosError ("Request failed with status code " +:+ string_of_Z status_) true
                      (Some {| status := status_; data := body |})) remote st'
                 = Some (res, st')).
    { destruct c; first [contradiction|exact Hres]. }
    cbn in Hh. injection Hh as <-. eexists. split; [reflexivity|].
    split; [reflexivity|]. split.
    + apply (contains_intro "MCP error -32603: iLevel API error: ").
    + exists ("MCP error -32603: iLevel API error: " +:+ string_of_Z status_ +:+ " - "),
        EmptyString.
      rewrite sapp_nil_r, !sapp_assoc. reflexivity.
Qed.

Lemma remote_error_carries_status_and_body_witness :
  exists message,
    call_tool example_server "get_user" user_123 failing_remote example_serving_state
    = Some (Throw (McpError InternalError message), record_request example_serving_state get_user_123)
    /\ failing_remote get_user_123 = axios.Responded 500 (JString "upstream failure")
    /\ axios.validateStatus 500 = false
    /\ contains "500" message
    /\ contains (quote "upstream failure") message.
Proof.
  destruct (remote_error_carries_status_and_body
              example_server "get_user" user_123 failing_remote example_serving_state
              _ _ get_user_123 500 (JString "upstream failure")
              eq_refl eq_refl eq_refl eq_refl) as [_ H].
  destruct (H ltac:(discriminate)) as (message & Hres & _ & H500 & Hbody).
  exists message. injection Hres as <-.
  repeat split; assumption.
Defined.

(** C4 as the spec states it fails twice.  A payload that is a JSON string
    is returned without its quotes, so the text of ["123"] is [123], which
    parses to the number 123, not to the string.  And [test_connection]
    returns its own report, whatever the payload was. *)
Lemma string_payload_and_probe_do_not_round_trip :
  (call_tool example_server "get_user" user_123 (answering (JString "123")) example_serving_state
   = Some (Normal {| content := [ {| type := "text"; text := "123" |} ] |},
           record_request example_serving_state get_user_123)
   /\ JSON_parse "123" = Some (JNumber 123)
   /\ JSON_parse "123" <> Some (JString "123"))
  /\ (call_tool example_server "test_connection" None (answering (JArray [])) example_serving_state
      = Some (Normal (formatResponse (connection_report true)),
              record_request example_serving_state example_probe)
      /\ JSON_parse (JSON_stringify (connection_report true) 2)
         = Some (connection_report true)
      /\ connection_report true <> JArray []).
Proof.
  repeat split; try reflexivity; discriminate.
Qed.

(** C4, amended: a successful call of any tool but [test_connection]
    returns one text item.  For a payload that is not a string the text is
    [JSON.stringify(payload, null, 2)] and [JSON.parse] of it is the payload;
    for a string payload the text is the string itself. *)
Theorem successful_call_returns_payload_text
    (srv : Server) (tool : string) (args : option jobject) (remote : Remote) (st : State)
    (result : CallToolResult) (st' : State) (rq : axios.Issued)
    (status_ : Z) (payload : json) :
  call_tool srv tool args remote st = Some (Normal result, st') ->
  issued st' = issued st ++ [rq] ->
  remote rq = axios.Responded status_ payload ->
  tool <> "test_connection" ->
  json_wf payload = true ->
  exists t,
    content result = [ {| type := "text"; text := t |} ]
    /\ match payload with
       | JString s => t = s
       | _ => t = JSON_stringify payload 2 /\ JSON_parse t = Some payload
       end.
Proof.
  intros Hcall Hissued Hreply Htool Hwf.
  destruct (call_tool_after_request _ _ _ _ _ _ _ _ Hcall Hissued) as (c & Hc & _ & Hres).
  assert (Hc' : c <> test_connection).
  { intros ->. apply Htool, switch_test_connection, Hc. }
  rewrite Hreply in Hres. cbn [axios_settle] in Hres.
  destruct (axios.validateStatus status_).
  - assert (Hr : result = formatResponse payload).
    { destruct c; first [contradiction|injection Hres as ->; reflexivity]. }
    subst result. eexists. split; [reflexivity|].
    pose proof (JSON_parse_stringify payload 2 Hwf) as Hparse.
    destruct payload; first [reflexivity|split; [reflexivity|exact Hparse]].
  - exfalso. destruct c; try contradiction; cbn in Hres; discriminate.
Qed.

Lemma successful_call_returns_payload_text_witness :
  call_tool example_server "get_user" user_123 acme_remote example_serving_state
  = Some (Normal (formatResponse acme), record_request example_serving_state get_user_123)
  /\ acme_remote get_user_123 = axios.Responded 200 acme
  /\ json_wf acme = true
  /\ exists t,
       content (formatResponse acme) = [ {| type := "text"; text := t |} ]
       /\ t = JSON_stringify acme 2 /\ JSON_parse t = Some acme.
Proof.
  assert (H1 : call_tool example_server "get_user" user_123 acme_remote example_serving_state
               = Some (Normal (formatResponse acme),
                       record_request example_serving_state get_user_123)) by reflexivity.
  assert (H3 : acme_remote get_user_123 = axios.Responded 200 acme) by reflexivity.
  assert (H5 : json_wf acme = true) by reflexivity.
  split; [exact H1|]. split; [exact H3|]. split; [exact H5|].
  exact (successful_call_returns_payload_text
           example_server "get_user" user_123 acme_remote example_serving_state
           (formatResponse acme) _ get_user_123 200 acme
           H1 eq_refl H3 ltac:(discriminate) H5).
Defined.

(** C5: when any of the three required variables is not set, start-up ends
    with exit status 1; nothing has been allocated and no request has been
    made. *)
Theorem startup_without_required_configuration
    (env : gmap string string) (remote : Remote) (st : State) :
  env !! "ILEVEL_BASE_URL" = None \/ env !! "ILEVEL_USERNAME" = None
  \/ env !! "ILEVEL_PASSWORD" = None ->
  exists code, startup env remote st = Some (Normal (Exited code), st) /\ code <> 0.
Proof.
  intros H. exists 1. split; [|discriminate].
  unfold startup, ILEVEL_BASE_URL, ILEVEL_USERNAME, ILEVEL_PASSWORD.
  destruct H as [H|[H|H]]; rewrite H; simpl;
    repeat (match goal with |- context [truthy ?x] => destruct (truthy x) end);
    reflexivity.
Qed.

Lemma startup_without_required_configuration_witness :
  (delete "ILEVEL_PASSWORD" example_env !! "ILEVEL_BASE_URL" = None
   \/ delete "ILEVEL_PASSWORD" example_env !! "ILEVEL_USERNAME" = None
   \/ delete "ILEVEL_PASSWORD" example_env !! "ILEVEL_PASSWORD" = None)
  /\ exists code,
       startup (delete "ILEVEL_PASSWORD" example_env) (answering (JArray [])) initial_state
       = Some (Normal (Exited code), initial_state) /\ code <> 0.
Proof.
  assert (H : delete "ILEVEL_PASSWORD" example_env !! "ILEVEL_BASE_URL" = None
              \/ delete "ILEVEL_PASSWORD" example_env !! "ILEVEL_USERNAME" = None
              \/ delete "ILEVEL_PASSWORD" example_env !! "ILEVEL_PASSWORD" = None).
  { right. right. reflexivity. }
  split; [exact H|].
  exact (startup_without_required_configuration _ _ _ H).
Defined.

(** C6: [testConnection] makes one request, [GET /users], and always
    returns: [true] exactly when that request completes without throwing,
    that is when a response with a 2xx status comes back, and [false] for a
    response with another status, a timeout, no response, and a request that
    could not be sent.  It never throws. *)
Theorem testConnection_reduces_to_boolean
    (this : ILevelClient.t) (remote : Remote) (st : State) :
  let probe := axios.Get "/users" None in
  let rq := {| axios.via := ILevelClient.client this; axios.call := probe |} in
  exists b,
    ILevelClient.testConnection this remote st = Some (Normal b, record_request st rq)
    /\ (b = true <->
        exists response,
          axios_call (ILevelClient.client this) probe remote st
          = Some (Normal response, record_request st rq))
    /\ (b = false <->
        exists e,
          axios_call (ILevelClient.client this) probe remote st
          = Some (Throw e, record_request st rq))
    /\ b = match remote rq with
           | axios.Responded status _ => axios.validateStatus status
           | axios.TimedOut | axios.NoResponse _ | axios.NotSent _ => false
           end.
Proof.
  cbv zeta. rewrite testConnection_run, axios_call_run.
  eexists. split; [reflexivity|].
  destruct (remote _) as [status body| | |]; simpl;
    try destruct (axios.validateStatus status); simpl;
    (split; [|split]); try reflexivity;
    split; intros H; try discriminate; try reflexivity;
    try (eexists; reflexivity); destruct H as [? H]; discriminate.
Qed.

(** C7: on the server that start-up builds, reading [ilevel://config]
    returns one JSON text whose value is an object with exactly the four
    properties [baseUrl], [username], [isSandbox] and [apiVersion] (the
    password is not among them), and reading any other URI throws an
    invalid-request error; neither makes a request. *)
Theorem read_resource_snapshot_or_invalid_request
    (env : gmap string string) (remote0 : Remote) (st0 : State) (srv : Server) (st1 : State)
    (remote : Remote) (st : State) :
  startup env remote0 st0 = Some (Normal (Serving srv), st1) ->
  heap st = heap st1 ->
  (exists base user snapshot,
     ILEVEL_BASE_URL env = Some base /\ ILEVEL_USERNAME env = Some user
     /\ read_resource srv "ilevel://config" remote st
        = Some (Normal {| contents := [ {| Contents.uri := "ilevel://config";
                                           Contents.mimeType := "application/json";
                                           Contents.text := snapshot |} ] |}, st)
     /\ JSON_parse snapshot
        = Some (JObject [("baseUrl", JString base);
                         ("username", JString user);
                         ("isSandbox", JBool (ILEVEL_SANDBOX env));
                         ("apiVersion", JString "v1")]))
  /\ (forall uri, uri <> "ilevel://config" ->
        read_resource srv uri remote st
        = Some (Throw (McpError InvalidRequest
                         ("MCP error -32600: Unknown resource: " +:+ uri)), st)).
Proof.
  intros Hstart Hheap.
  apply startup_serving in Hstart as (base & user & pass & Hb & Hu & _ & _ & Hcfg & _).
  cbv zeta in Hcfg. split.
  - exists base, user. eexists. split; [exact Hb|]. split; [exact Hu|].
    unfold read_resource. rewrite String.eqb_refl.
    unfold bind, deref. rewrite Hheap, Hcfg.
    split; [reflexivity|].
    exact (JSON_parse_stringify
             (JObject [("baseUrl", JString base); ("username", JString user);
                       ("isSandbox", JBool (ILEVEL_SANDBOX env));
                       ("apiVersion", JString "v1")]) 2 eq_refl).
  - intros uri Hne. unfold read_resource.
    apply String.eqb_neq in Hne. rewrite Hne. reflexivity.
Qed.

Lemma read_resource_snapshot_or_invalid_request_witness :
  startup example_env (answering (JArray [])) initial_state
  = Some (Normal (Serving example_server), example_serving_state)
  /\ (exists snapshot,
        read_resource example_server "ilevel://config" failing_remote example_serving_state
        = Some (Normal {| contents := [ {| Contents.uri := "ilevel://config";
                                           Contents.mimeType := "application/json";
                                           Contents.text := snapshot |} ] |},
                example_serving_state)
        /\ JSON_parse snapshot
           = Some (JObject [("baseUrl", JString "https://sandapi.ilevelsolutions.com");
                            ("username", JString "analyst");
                            ("isSandbox", JBool false);
                            ("apiVersion", JString "v1")]))
  /\ read_resource example_server "bad://uri" failing_remote example_serving_state
     = Some (Throw (McpError InvalidRequest "MCP error -32600: Unknown resource: bad://uri"),
             example_serving_state).
Proof.
  assert (H1 : startup example_env (answering (JArray [])) initial_state
               = Some (Normal (Serving example_server), example_serving_state))
    by (vm_compute; reflexivity).
  destruct (read_resource_snapshot_or_invalid_request
              example_env (answering (JArray [])) initial_state example_server
              example_serving_state failing_remote example_serving_state H1 eq_refl)
    as [(base & user & snapshot & Hb & Hu & Hread & Hparse) Hother].
  injection Hb as <-. injection Hu as <-.
  split; [exact H1|]. split.
  - exists snapshot. split; [exact Hread|exact Hparse].
  - exact (Hother "bad://uri" ltac:(discriminate)).
Defined.

(** C8: the constructor builds its axios instance with the base path
    [baseUrl/api/version], where the version is [v1] when the record has no
    [apiVersion], Basic authentication from the record's user name and
    password, JSON [Content-Type] and [Accept] headers and a timeout of
    30000 ms; it sends nothing itself, and every request that a tool call of
    a server with this client makes carries these settings. *)
Theorem constructor_configures_every_request
    (l : loc) (c : ILevelConfig) (remote : Remote) (st : State) :
  heap st !! l = Some c ->
  exists this st',
    ILevelClient.new l remote st = Some (Normal this, st')
    /\ issued st' = issued st
    /\ axios.baseURL (ILevelClient.client this)
       = baseUrl c +:+ "/api/" +:+ match apiVersion c with
                                   | absent => "v1"
                                   | undefined => "undefined"
                                   | defined v => v
                                   end
    /\ axios.auth (ILevelClient.client this)
       = {| axios.username := username c; axios.password := password c |}
    /\ axios.headers (ILevelClient.client this)
       = [("Content-Type", "application/json"); ("Accept", "application/json")]
    /\ axios.timeout (ILevelClient.client this) = 30000
    /\ forall cfg tool args remote' st1 res st2,
         call_tool {| config := cfg; iLevelClient := this |} tool args remote' st1
         = Some (res, st2) ->
         exists sent, issued st2 = issued st1 ++ sent
                      /\ Forall (fun rq => axios.via rq = ILevelClient.client this) sent.
Proof.
  intros H. eexists _, _. split; [apply (new_run l c remote st H)|].
  cbn. repeat split.
  intros cfg tool args remote' st1 res st2 Hcall.
  apply call_tool_requests in Hcall as [_ [E|[call_ E]]]; cbn in E.
  - exists []. rewrite app_nil_r. split; [exact E|constructor].
  - eexists [_]. split; [exact E|]. repeat constructor.
Qed.

Lemma constructor_configures_every_request_witness :
  (<[1%positive := example_config]> (∅ : gmap loc ILevelConfig)) !! 1%positive
  = Some example_config
  /\ exists this st',
       ILevelClient.new 1%positive (fun _ => axios.TimedOut)
         {| heap := <[1%positive := example_config]> ∅; issued := [] |}
       = Some (Normal this, st')
       /\ axios.baseURL (ILevelClient.client this) = "https://sandapi.ilevelsolutions.com/api/v1"
       /\ axios.timeout (ILevelClient.client this) = 30000.
Proof.
  assert (H : (<[1%positive := example_config]> (∅ : gmap loc ILevelConfig)) !! 1%positive
              = Some example_config) by reflexivity.
  split; [exact H|].
  destruct (constructor_configures_every_request 1%positive example_config
              (fun _ => axios.TimedOut)
              {| heap := <[1%positive := example_config]> ∅; issued := [] |} H)
    as (this & st' & Hnew & _ & Hbase & _ & _ & Htimeout & _).
  exists this, st'. repeat split; assumption.
Defined.

(** C9: the constructor leaves the record it is given as it was.  The
    record with the default lives at a new reference, which the client
    keeps; every reference that existed before still holds what it held.  A
    caller's record without [apiVersion] has none afterwards, so the
    configuration resource gets its [v1] from its own fallback. *)
Theorem constructor_does_not_mutate_its_argument
    (l : loc) (c : ILevelConfig) (remote : Remote) (st : State) :
  heap st !! l = Some c ->
  exists this st',
    ILevelClient.new l remote st = Some (Normal this, st')
    /\ heap st' !! l = Some c
    /\ ILevelClient.config this <> l
    /\ heap st !! ILevelClient.config this = None
    /\ heap st' !! ILevelClient.config this = Some (ILevelClient.spread_over_default c)
    /\ (forall l', l' <> ILevelClient.config this -> heap st' !! l' = heap st !! l')
    /\ (apiVersion c = absent ->
        (exists c', heap st' !! l = Some c' /\ apiVersion c' = absent)
        /\ (exists copy, heap st' !! ILevelClient.config this = Some copy
                         /\ apiVersion copy = defined "v1")
        /\ or_default (apiVersion c) "v1" = "v1").
Proof.
  intros H. eexists _, _. split; [apply (new_run l c remote st H)|]. cbn.
  assert (Hne : fresh (dom (heap st)) <> l).
  { intros E. pose proof (fresh_not_allocated (heap st)) as Hf. rewrite E, H in Hf. discriminate. }
  split; [rewrite lookup_insert_ne by exact Hne; exact H|].
  split; [exact Hne|].
  split; [apply fresh_not_allocated|].
  split; [apply lookup_insert_eq|].
  split; [intros l' Hl'; apply lookup_insert_ne; congruence|].
  intros Habs. split; [|split].
  - exists c. split; [|exact Habs]. rewrite lookup_insert_ne by exact Hne. exact H.
  - eexists. split; [apply lookup_insert_eq|]. cbn. rewrite Habs. reflexivity.
  - rewrite Habs. reflexivity.
Qed.

Lemma constructor_does_not_mutate_its_argument_witness :
  (<[1%positive := example_config]> (∅ : gmap loc ILevelConfig)) !! 1%positive
  = Some example_config
  /\ exists this st',
       ILevelClient.new 1%positive (fun _ => axios.TimedOut)
         {| heap := <[1%positive := example_config]> ∅; issued := [] |}
       = Some (Normal this, st')
       /\ heap st' !! 1%positive = Some example_config
       /\ ILevelClient.config this <> 1%positive.
Proof.
  assert (H : (<[1%positive := example_config]> (∅ : gmap loc ILevelConfig)) !! 1%positive
              = Some example_config) by reflexivity.
  split; [exact H|].
  destruct (constructor_does_not_mutate_its_argument 1%positive example_config
              (fun _ => axios.TimedOut)
              {| heap := <[1%positive := example_config]> ∅; issued := [] |} H)
    as (this & st' & Hnew & Hsame & Hne & _).
  exists this, st'. repeat split; assumption.
Defined.

(** C10: the catalog that [list_tools] returns has 19 entries with 19
    different names, and the [switch] of [call_tool] has a case for each of
    them, in the same order; no catalogued name reaches [default]. *)
Theorem every_catalogued_tool_has_a_case :
  length list_tools = 19%nat
  /\ NoDup (map name list_tools)
  /\ map name list_tools = map fst case_labels
  /\ Forall (fun t => exists c, switch case_labels (name t) = Some c) list_tools.
Proof.
  split; [reflexivity|]. split.
  - apply distinct_NoDup. reflexivity.
  - split; [reflexivity|]. unfold list_tools, tools.
    repeat (apply Forall_cons_2; [eexists; reflexivity|]). apply Forall_nil_2.
Qed.

(* ===================================================================== *)
(** * 10. Further properties of the dispatcher, the client and start-up    *)
(* ===================================================================== *)

(** The message of the error [handleError] throws, read off the error it is
    given. *)
Lemma handleError_message {A : Type} (e : JsError) (remote : Remote) (st : State) :
  @handleError A e remote st
  = Some (Throw (McpError InternalError
                   ("MCP error -32603: "
                      +:+ match error_response e with
                          | Some response =>
                              "iLevel API error: " +:+ string_of_Z (status response) +:+ " - "
                                +:+ JSON_stringify (data response) 0
                          | None =>
                              if error_request e then "No response received from iLevel API"
                              else "Request failed: " +:+ error_message e
                          end)), st).
Proof.
  unfold handleError.
  destruct (error_response e); [|destruct (error_request e)]; reflexivity.
Qed.

(** Unfolding a case of the switch down to its one axios call. *)
Ltac run_case_body :=
  unfold run_case, destructure, optional_chain,
    ILevelClient.testConnection, ILevelClient.getUsers,
    ILevelClient.getUser, ILevelClient.getClients, ILevelClient.getClient,
    ILevelClient.getPortfolios, ILevelClient.getAssets, ILevelClient.getFunds,
    ILevelClient.getInvestments, ILevelClient.getDocuments, ILevelClient.getDocument,
    ILevelClient.getValuations, ILevelClient.createValuation,
    ILevelClient.getCalculations, ILevelClient.queryData, ILevelClient.getWebhooks,
    ILevelClient.createWebhook, ILevelClient.deleteWebhook, ILevelClient.request,
    bind, try_catch, ret, throw;
  rewrite ?axios_call_run.

(** A tool call whose name is one of the labels, opened up to the settled
    reply of its request. *)
Ltac run_tool :=
  unfold sends, call_tool;
  cbn [switch case_labels String.eqb Ascii.eqb Bool.eqb];
  run_case_body; unfold try_catch; rewrite ?axios_call_run;
  repeat match goal with
         | |- context [axios_settle ?i ?r] => destruct (axios_settle i r)
         end;
  rewrite ?handleError_message.

(** X1: the four list tools hand the whole argument bag, as it came, to axios
    as the query parameters of one GET. *)
Theorem list_tools_forward_the_argument_bag
    (srv : Server) (args : option jobject) (remote : Remote) (st : State) :
  sends srv "get_users" args remote st (axios.Get "/users" (JObject <$> args))
  /\ sends srv "get_clients" args remote st (axios.Get "/clients" (JObject <$> args))
  /\ sends srv "get_portfolios" args remote st (axios.Get "/webapp" (JObject <$> args))
  /\ sends srv "get_documents" args remote st (axios.Get "/documents-api" (JObject <$> args)).
Proof.
  repeat split; run_tool; eexists; reflexivity.
Qed.

(** X2: the five filter tools send only the [filters] property of the bag as
    query parameters, and send their GET even when there is no bag at all;
    two bags with the same [filters] give the same request. *)
Theorem filter_tools_forward_only_filters
    (srv : Server) (args : option jobject) (remote : Remote) (st : State) :
  let params := optional_chain args "filters" in
  (sends srv "get_assets" args remote st (axios.Get "/assets" params)
   /\ sends srv "get_funds" args remote st (axios.Get "/funds" params)
   /\ sends srv "get_investments" args remote st (axios.Get "/investments" params)
   /\ sends srv "get_valuations" args remote st (axios.Get "/valuation-api" params)
   /\ sends srv "get_calculations" args remote st (axios.Get "/calcs-api" params))
  /\ (args = None -> params = None)
  /\ (forall o, args = Some o -> params = obj_get "filters" o).
Proof.
  cbv zeta. split; [|split].
  - repeat split; run_tool; eexists; reflexivity.
  - intros ->. reflexivity.
  - intros o ->. reflexivity.
Qed.


(** X4: [create_valuation] and [query_data] post only the [data] and [query]
    property of the bag, [create_webhook] posts the whole bag, and
    [get_webhooks] sends the same GET whatever the bag holds. *)
Theorem body_tools_post_what_they_are_given
    (srv : Server) (args : option jobject) (o : jobject) (remote : Remote) (st : State) :
  sends srv "create_valuation" (Some o) remote st
    (axios.Post "/valuation-api" (obj_get "data" o))
  /\ sends srv "query_data" (Some o) remote st
       (axios.Post "/data-retrieval" (obj_get "query" o))
  /\ sends srv "create_webhook" args remote st (axios.Post "/webhooks" (JObject <$> args))
  /\ sends srv "get_webhooks" args remote st (axios.Get "/webhooks" None).
Proof.
  repeat split; run_tool; eexists; reflexivity.
Qed.

(** X5: [custom_request] hands the [method], [endpoint] and [data]
    properties of the bag to axios as they are: nothing checks the method
    against the four the schema lists, or that the endpoint is there. *)
Theorem custom_request_passes_through
    (srv : Server) (o : jobject) (remote : Remote) (st : State) :
  sends srv "custom_request" (Some o) remote st
    (axios.Request (obj_get "method" o) (obj_get "endpoint" o) (obj_get "data" o)).
Proof.
  run_tool; eexists; reflexivity.
Qed.

(** A tool call always returns; it throws only what [handleError] throws. *)
Lemma call_tool_run (srv : Server) (tool : string) (args : option jobject)
    (remote : Remote) (st : State) :
  exists res st',
    call_tool srv tool args remote st = Some (res, st')
    /\ match res with
       | Normal _ => True
       | Throw e => exists m, e = McpError InternalError ("MCP error -32603: " +:+ m)
       end.
Proof.
  unfold call_tool, try_catch. destruct (switch case_labels tool) as [c|].
  - destruct (run_case_cases srv c args remote st) as [[m ->]|[call_ ->]].
    + rewrite handleError_message. eexists _, _. split; [reflexivity|]. eexists; reflexivity.
    + cbv zeta. destruct (axios_settle _ _) as [r|e].
      * eexists _, _. split; [reflexivity|exact I].
      * destruct c; try rewrite handleError_message;
          (eexists _, _; split; [reflexivity|]); try exact I; eexists; reflexivity.
  - unfold throw. rewrite handleError_message.
    eexists _, _. split; [reflexivity|]. eexists; reflexivity.
Qed.

(** X6: whatever goes wrong in a tool call (an unknown name, a missing
    argument bag, a failed request), the caller sees an [McpError] with the
    internal-error code; no other error code and no raw axios or type error
    leaves the handler. *)
Theorem call_tool_throws_only_internal_errors
    (srv : Server) (tool : string) (args : option jobject) (remote : Remote) (st : State)
    (e : JsError) (st' : State) :
  call_tool srv tool args remote st = Some (Throw e, st') ->
  exists m, e = McpError InternalError ("MCP error -32603: " +:+ m).
Proof.
  intros H. destruct (call_tool_run srv tool args remote st) as (res & st1 & Hrun & Hres).
  rewrite Hrun in H. injection H as -> _. exact Hres.
Qed.

Lemma call_tool_throws_only_internal_errors_witness :
  exists m,
    call_tool example_server "get_user" None failing_remote example_serving_state
    = Some (Throw (McpError InternalError ("MCP error -32603: " +:+ m)), example_serving_state).
Proof.
  destruct (call_tool_throws_only_internal_errors
              example_server "get_user" None failing_remote example_serving_state
              _ _ eq_refl) as [m Hm].
  exists m. rewrite <- Hm. reflexivity.
Defined.

(** X7: a tool call always returns, sends at most one request (there is no
    retry), sends it through the server's client, keeps the requests made
    before it, and leaves the store as it was. *)
Theorem call_tool_sends_at_most_one_request
    (srv : Server) (tool : string) (args : option jobject) (remote : Remote) (st : State) :
  exists res st',
    call_tool srv tool args remote st = Some (res, st')
    /\ heap st' = heap st
    /\ (issued st' = issued st
        \/ exists c, issued st' = issued st ++ [ {| axios.via := ILevelClient.client (iLevelClient srv);
                                                   axios.call := c |} ]).
Proof.
  destruct (call_tool_run srv tool args remote st) as (res & st' & Hrun & _).
  exists res, st'. split; [exact Hrun|].
  exact (call_tool_requests srv tool args remote st res st' Hrun).
Qed.

(** X8: the result of a tool call does not depend on the state it runs in:
    no call sees the requests or the results of the calls before it. *)
Theorem call_tool_is_stateless
    (srv : Server) (tool : string) (args : option jobject) (remote : Remote)
    (st1 st2 : State) :
  outcome (call_tool srv tool args remote st1) = outcome (call_tool srv tool args remote st2).
Proof.
  unfold call_tool, try_catch, outcome. destruct (switch case_labels tool) as [c|].
  - destruct c, args as [o|]; run_case_body; unfold try_catch; rewrite ?axios_call_run;
      repeat match goal with
             | |- context [axios_settle ?i ?r] => destruct (axios_settle i r)
             end;
      rewrite ?handleError_message; reflexivity.
  - unfold throw. rewrite !handleError_message. reflexivity.
Qed.

(** X9: when the request of a tool other than [test_connection] gets no
    response (a timeout or a failed connection), the caller gets the fixed
    message [No response received from iLevel API], whatever axios said; when
    the request could not be sent at all, the caller gets [Request failed: ]
    followed by the message of the failure. *)
Theorem transport_failures_are_reported
    (srv : Server) (tool : string) (args : option jobject) (remote : Remote) (st : State)
    (res : Completion CallToolResult) (st' : State) (rq : axios.Issued) :
  call_tool srv tool args remote st = Some (res, st') ->
  issued st' = issued st ++ [rq] ->
  tool <> "test_connection" ->
  (silent (remote rq) = true ->
   res = Throw (McpError InternalError
                  "MCP error -32603: No response received from iLevel API"))
  /\ (forall m, remote rq = axios.NotSent m ->
      res = Throw (McpError InternalError ("MCP error -32603: Request failed: " +:+ m))).
Proof.
  intros Hcall Hissued Htool.
  destruct (call_tool_after_request _ _ _ _ _ _ _ _ Hcall Hissued) as (c & Hc & _ & Hres).
  assert (Hc' : c <> test_connection).
  { intros ->. apply Htool, switch_test_connection, Hc. }
  split.
  - intros Hsilent.
    destruct (remote rq) as [s b| |m|m]; try discriminate; cbn [axios_settle] in Hres;
      (destruct c; try contradiction; rewrite handleError_message in Hres;
       injection Hres as <-; reflexivity).
  - intros m Hm. rewrite Hm in Hres. cbn [axios_settle] in Hres.
    destruct c; try contradiction; rewrite handleError_message in Hres;
      injection Hres as <-; reflexivity.
Qed.

Lemma transport_failures_are_reported_witness :
  call_tool example_server "get_user" user_123 (fun _ => axios.TimedOut) example_serving_state
  = Some (Throw (McpError InternalError
                   "MCP error -32603: No response received from iLevel API"),
          record_request example_serving_state get_user_123).
Proof.
  destruct (transport_failures_are_reported
              example_server "get_user" user_123 (fun _ => axios.TimedOut)
              example_serving_state _ _ get_user_123 eq_refl eq_refl ltac:(discriminate))
    as [H _].
  rewrite <- (H eq_refl). reflexivity.
Defined.

(** X10: with no argument bag at all, the seven tools that destructure it
    throw before anything is sent, and every other catalogued tool still
    sends its request. *)
Theorem missing_argument_bag
    (srv : Server) (tool : string) (remote : Remote) (st : State)
    (res : Completion CallToolResult) (st' : State) :
  tool ∈ map name tools ->
  call_tool srv tool None remote st = Some (res, st') ->
  (tool ∈ destructuring_tools ->
   st' = st /\ exists m, res = Throw (McpError InternalError
                                        ("MCP error -32603: Request failed: " +:+ m)))
  /\ (tool ∉ destructuring_tools -> exists rq, issued st' = issued st ++ [rq]).
Proof.
  intros Hin Hcall.
  unfold tools in Hin. cbn [map name] in Hin.
  repeat (apply elem_of_cons in Hin as [->|Hin]); [..|apply elem_of_nil in Hin; contradiction].
  all: revert Hcall; unfold call_tool;
    cbn [switch case_labels String.eqb Ascii.eqb Bool.eqb];
    run_case_body; unfold try_catch; rewrite ?axios_call_run;
    repeat match goal with
           | |- context [axios_settle ?i ?r] => destruct (axios_settle i r)
           end;
    rewrite ?handleError_message; intros [= <- <-]; split; intros Hd;
    first
      [ solve [split; [reflexivity|eexists; reflexivity]]
      | solve [eexists; reflexivity]
      | solve [exfalso; apply Hd; unfold destructuring_tools;
               repeat first [apply list_elem_of_here|apply list_elem_of_further]]
      | solve [exfalso; revert Hd; apply (proj1 (bool_decide_eq_false _));
               vm_compute; reflexivity] ].
Qed.

Lemma missing_argument_bag_witness :
  ("get_document" ∈ map name tools)
  /\ ("get_document" ∈ destructuring_tools)
  /\ exists m,
       call_tool example_server "get_document" None acme_remote example_serving_state
       = Some (Throw (McpError InternalError ("MCP error -32603: Request failed: " +:+ m)),
               example_serving_state).
Proof.
  assert (H1 : "get_document" ∈ map name tools)
    by (apply (bool_decide_unpack _); vm_compute; exact I).
  assert (H2 : "get_document" ∈ destructuring_tools)
    by (apply (bool_decide_unpack _); vm_compute; exact I).
  split; [exact H1|]. split; [exact H2|].
  destruct (missing_argument_bag example_server "get_document" acme_remote
              example_serving_state _ _ H1 eq_refl) as [H _].
  destruct (H H2) as (_ & m & Hm). exists m. rewrite <- Hm. reflexivity.
Defined.

(** X11: the [test_connection] tool never throws and pays no attention to its
    arguments: it sends the probe and reports [connected: true] with the
    success message exactly when a 2xx response came back, and [connected:
    false] with the failure message otherwise. *)
Theorem test_connection_tool_always_reports
    (srv : Server) (args : option jobject) (remote : Remote) (st : State) :
  let probe := {| axios.via := ILevelClient.client (iLevelClient srv);
                  axios.call := axios.Get "/users" None |} in
  let connected := match remote probe with
                   | axios.Responded s _ => axios.validateStatus s
                   | _ => false
                   end in
  call_tool srv "test_connection" args remote st
  = Some (Normal (formatResponse (connection_report connected)), record_request st probe)
  /\ JSON_parse (JSON_stringify (connection_report connected) 2)
     = Some (JObject [("connected", JBool connected);
                      ("message", JString (if connected
                                           then "Successfully connected to iLevel API"
                                           else "Failed to connect to iLevel API"))]).
Proof.
  cbv zeta. split.
  - unfold call_tool. cbn [switch case_labels String.eqb Ascii.eqb Bool.eqb].
    run_case_body. unfold try_catch. rewrite ?axios_call_run.
    destruct (remote _) as [s b| | |]; cbn [axios_settle];
      try destruct (axios.validateStatus s); reflexivity.
  - apply JSON_parse_stringify. reflexivity.
Qed.

(** X12: the body of a non-2xx response can be read back from the error
    message: what follows [iLevel API error: <status> - ] is compact JSON
    that parses to the body. *)
Theorem error_message_body_parses_back
    (srv : Server) (tool : string) (args : option jobject) (remote : Remote) (st : State)
    (res : Completion CallToolResult) (st' : State) (rq : axios.Issued)
    (status_ : Z) (body : json) :
  call_tool srv tool args remote st = Some (res, st') ->
  issued st' = issued st ++ [rq] ->
  remote rq = axios.Responded status_ body ->
  axios.validateStatus status_ = false ->
  tool <> "test_connection" ->
  json_wf body = true ->
  exists tail,
    res = Throw (McpError InternalError
                   ("MCP error -32603: iLevel API error: " +:+ string_of_Z status_
                      +:+ " - " +:+ tail))
    /\ JSON_parse tail = Some body.
Proof.
  intros Hcall Hissued Hreply Hstatus Htool Hwf.
  destruct (call_tool_after_request _ _ _ _ _ _ _ _ Hcall Hissued) as (c & Hc & _ & Hres).
  assert (Hc' : c <> test_connection).
  { intros ->. apply Htool, switch_test_connection, Hc. }
  rewrite Hreply in Hres. cbn [axios_settle] in Hres. rewrite Hstatus in Hres.
  exists (JSON_stringify body 0). split; [|apply JSON_parse_stringify, Hwf].
  destruct c; try contradiction; rewrite handleError_message in Hres;
    injection Hres as <-; reflexivity.
Qed.

Lemma error_message_body_parses_back_witness :
  exists tail,
    call_tool example_server "get_user" user_123 failing_remote example_serving_state
    = Some (Throw (McpError InternalError
                     ("MCP error -32603: iLevel API error: 500 - " +:+ tail)),
            record_request example_serving_state get_user_123)
    /\ JSON_parse tail = Some (JString "upstream failure").
Proof.
  destruct (error_message_body_parses_back
              example_server "get_user" user_123 failing_remote example_serving_state
              _ _ get_user_123 500 (JString "upstream failure")
              eq_refl eq_refl eq_refl eq_refl ltac:(discriminate) eq_refl)
    as (tail & Hres & Hparse).
  exists tail. split; [|exact Hparse].
  exact (f_equal (fun r => Some (r, record_request example_serving_state get_user_123)) Hres).
Defined.

(** What start-up does when the three required variables are set and not
    empty. *)
Lemma startup_run (env : gmap string string) (remote : Remote) (st : State)
    (base user pass : string) :
  ILEVEL_BASE_URL env = Some base -> ILEVEL_USERNAME env = Some user ->
  ILEVEL_PASSWORD env = Some pass ->
  base <> EmptyString -> user <> EmptyString -> pass <> EmptyString ->
  let given := {| baseUrl := base; username := user; password := pass;
                  isSandbox := defined (ILEVEL_SANDBOX env); apiVersion := absent |} in
  let l1 := fresh (dom (heap st)) in
  let l2 := fresh (dom (<[l1 := given]> (heap st))) in
  startup env remote st
  = Some (Normal (Serving {| config := l1;
                             iLevelClient := {| ILevelClient.client := client_of given;
                                                ILevelClient.config := l2 |} |}),
          record_request
            {| heap := <[l2 := ILevelClient.spread_over_default given]>
                         (<[l1 := given]> (heap st));
               issued := issued st |}
            {| axios.via := client_of given; axios.call := axios.Get "/users" None |}).
Proof.
  intros Hb Hu Hp Nb Nu Np. cbv zeta. unfold startup. rewrite Hb, Hu, Hp.
  destruct base as [|c1 b]; [contradiction|].
  destruct user as [|c2 u]; [contradiction|].
  destruct pass as [|c3 p]; [contradiction|].
  cbn [truthy]. unfold bind at 1. unfold alloc at 1.
  unfold bind at 1.
  erewrite new_run by (apply lookup_insert_eq).
  unfold bind. rewrite testConnection_run. reflexivity.
Qed.

(** X13: with the three required variables set and not empty, start-up always
    ends up serving: it stores the configuration without an [apiVersion],
    builds the client on [base/api/v1], and makes exactly one request, the
    probe [GET /users].  A probe that fails changes nothing: the server is
    the same for every remote end.  The sandbox flag is on only for the
    exact text [true]. *)
Theorem startup_serves_whatever_the_probe_finds
    (env : gmap string string) (remote : Remote) (st : State) (base user pass : string) :
  ILEVEL_BASE_URL env = Some base -> ILEVEL_USERNAME env = Some user ->
  ILEVEL_PASSWORD env = Some pass ->
  base <> EmptyString -> user <> EmptyString -> pass <> EmptyString ->
  let given := {| baseUrl := base; username := user; password := pass;
                  isSandbox := defined (ILEVEL_SANDBOX env); apiVersion := absent |} in
  exists srv st1,
    startup env remote st = Some (Normal (Serving srv), st1)
    /\ heap st1 !! config srv = Some given
    /\ axios.baseURL (ILevelClient.client (iLevelClient srv)) = base +:+ "/api/v1"
    /\ issued st1 = issued st ++ [ {| axios.via := ILevelClient.client (iLevelClient srv);
                                      axios.call := axios.Get "/users" None |} ]
    /\ (forall remote', exists st1',
          startup env remote' st = Some (Normal (Serving srv), st1')
          /\ heap st1' = heap st1)
    /\ (ILEVEL_SANDBOX env = true <-> env !! "ILEVEL_SANDBOX" = Some "true").
Proof.
  intros Hb Hu Hp Nb Nu Np given.
  pose proof (startup_run env remote st base user pass Hb Hu Hp Nb Nu Np) as Hrun.
  cbv zeta in Hrun. fold given in Hrun.
  eexists _, _. split; [exact Hrun|]. cbn.
  split.
  { rewrite lookup_insert_ne; [apply lookup_insert_eq|].
    intros E. pose proof (fresh_not_allocated (<[fresh (dom (heap st)) := given]> (heap st))) as Hf.
    rewrite E, lookup_insert_eq in Hf. discriminate. }
  split; [reflexivity|]. split; [reflexivity|]. split.
  - intros remote'. eexists. split.
    + exact (startup_run env remote' st base user pass Hb Hu Hp Nb Nu Np).
    + reflexivity.
  - unfold ILEVEL_SANDBOX. destruct (env !! "ILEVEL_SANDBOX") as [v|].
    + rewrite String.eqb_eq. split; [intros ->; reflexivity|intros [= ->]; reflexivity].
    + split; discriminate.
Qed.

Lemma startup_serves_whatever_the_probe_finds_witness :
  exists srv st1,
    startup example_env failing_remote initial_state = Some (Normal (Serving srv), st1)
    /\ axios.baseURL (ILevelClient.client (iLevelClient srv))
       = "https://sandapi.ilevelsolutions.com/api/v1"
    /\ issued st1 = [ {| axios.via := ILevelClient.client (iLevelClient srv);
                         axios.call := axios.Get "/users" None |} ].
Proof.
  destruct (startup_serves_whatever_the_probe_finds
              example_env failing_remote initial_state
              "https://sandapi.ilevelsolutions.com" "analyst" "secret"
              eq_refl eq_refl eq_refl ltac:(discriminate) ltac:(discriminate)
              ltac:(discriminate))
    as (srv & st1 & Hrun & _ & Hbase & Hissued & _).
  exists srv, st1. repeat split; assumption.
Defined.

(** X14: a required variable that is set to the empty string counts as
    missing: start-up exits with status 1 before anything is allocated or
    sent. *)
Theorem startup_treats_empty_values_as_missing
    (env : gmap string string) (remote : Remote) (st : State) :
  ILEVEL_BASE_URL env = Some EmptyString \/ ILEVEL_USERNAME env = Some EmptyString
  \/ ILEVEL_PASSWORD env = Some EmptyString ->
  startup env remote st = Some (Normal (Exited 1), st).
Proof.
  intros H. unfold startup.
  destruct H as [H|[H|H]]; rewrite H; cbn [truthy];
    repeat (match goal with |- context [truthy ?x] => destruct (truthy x) end);
    reflexivity.
Qed.

Lemma startup_treats_empty_values_as_missing_witness :
  ILEVEL_USERNAME (<["ILEVEL_USERNAME" := EmptyString]> example_env) = Some EmptyString
  /\ startup (<["ILEVEL_USERNAME" := EmptyString]> example_env) acme_remote initial_state
     = Some (Normal (Exited 1), initial_state).
Proof.
  assert (H : ILEVEL_USERNAME (<["ILEVEL_USERNAME" := EmptyString]> example_env)
              = Some EmptyString) by reflexivity.
  split; [exact H|].
  exact (startup_treats_empty_values_as_missing _ acme_remote initial_state
           (or_intror (or_introl H))).
Defined.

(** Reading the configuration resource, for any record at the server's
    reference. *)
Lemma read_config_run (srv : Server) (c : ILevelConfig) (remote : Remote) (st : State) :
  heap st !! config srv = Some c ->
  read_resource srv "ilevel://config" remote st
  = Some (Normal {| contents := [ {| Contents.uri := "ilevel://config";
                                     Contents.mimeType := "application/json";
                                     Contents.text := JSON_stringify (config_snapshot c) 2 |} ] |},
          st).
Proof.
  intros H. unfold read_resource. rewrite String.eqb_refl.
  unfold bind, deref. rewrite H. reflexivity.
Qed.

(** X15: for any configuration record, the snapshot that [read_resource]
    returns parses to an object with the base URL, the user name, the
    sandbox flag when the record has one, and the API version, falling back
    to [v1]; it has no [password] property, and reading it sends nothing. *)
Theorem snapshot_leaves_the_password_out
    (srv : Server) (c : ILevelConfig) (remote : Remote) (st : State) :
  heap st !! config srv = Some c ->
  exists snapshot props,
    read_resource srv "ilevel://config" remote st
    = Some (Normal {| contents := [ {| Contents.uri := "ilevel://config";
                                       Contents.mimeType := "application/json";
                                       Contents.text := snapshot |} ] |}, st)
    /\ JSON_parse snapshot = Some (JObject props)
    /\ map fst props = snapshot_keys c
    /\ obj_get "password" props = None
    /\ obj_get "baseUrl" props = Some (JString (baseUrl c))
    /\ obj_get "username" props = Some (JString (username c))
    /\ obj_get "isSandbox" props = optional_bool_value (isSandbox c)
    /\ obj_get "apiVersion" props = Some (JString (or_default (apiVersion c) "v1")).
Proof.
  intros H. rewrite (read_config_run srv c remote st H).
  destruct c as [b u p [| |sb] v]; eexists _, _;
    (split; [reflexivity|]);
    (split; [apply JSON_parse_stringify; reflexivity|]);
    repeat split.
Qed.

Lemma snapshot_leaves_the_password_out_witness :
  heap example_serving_state !! config example_server = Some example_config
  /\ exists snapshot props,
       read_resource example_server "ilevel://config" failing_remote example_serving_state
       = Some (Normal {| contents := [ {| Contents.uri := "ilevel://config";
                                          Contents.mimeType := "application/json";
                                          Contents.text := snapshot |} ] |},
               example_serving_state)
       /\ JSON_parse snapshot = Some (JObject props)
       /\ map fst props = ["baseUrl"; "username"; "isSandbox"; "apiVersion"]
       /\ obj_get "password" props = None.
Proof.
  assert (H : heap example_serving_state !! config example_server = Some example_config)
    by reflexivity.
  split; [exact H|].
  destruct (snapshot_leaves_the_password_out example_server example_config failing_remote
              example_serving_state H)
    as (snapshot & props & Hread & Hparse & Hkeys & Hpw & _).
  exists snapshot, props. repeat split; assumption.
Defined.

(** X16: the resource that [list_resources] announces is the one that
    [read_resource] serves: its URI is readable and the contents come back
    under the same URI and MIME type. *)
Theorem every_listed_resource_can_be_read
    (srv : Server) (c : ILevelConfig) (remote : Remote) (st : State) :
  heap st !! config srv = Some c ->
  Forall (fun r =>
            exists snapshot,
              read_resource srv (Resource.uri r) remote st
              = Some (Normal {| contents := [ {| Contents.uri := Resource.uri r;
                                                 Contents.mimeType := Resource.mimeType r;
                                                 Contents.text := snapshot |} ] |}, st))
         list_resources.
Proof.
  intros H. unfold list_resources. apply Forall_cons_2; [|apply Forall_nil_2].
  cbn [Resource.uri Resource.mimeType].
  eexists. exact (read_config_run srv c remote st H).
Qed.

Lemma every_listed_resource_can_be_read_witness :
  Forall (fun r =>
            exists snapshot,
              read_resource example_server (Resource.uri r) acme_remote example_serving_state
              = Some (Normal {| contents := [ {| Contents.uri := Resource.uri r;
                                                 Contents.mimeType := Resource.mimeType r;
                                                 Contents.text := snapshot |} ] |},
                      example_serving_state))
         list_resources.
Proof.
  exact (every_listed_resource_can_be_read example_server example_config acme_remote
           example_serving_state eq_refl).
Defined.

(** X17: the version the client puts in its base path and the version the
    configuration resource reports agree when the record has no
    [apiVersion] or has a non-empty one. *)
Theorem client_and_resource_agree_on_the_version
    (l : loc) (c : ILevelConfig) (remote : Remote) (st : State) :
  heap st !! l = Some c ->
  apiVersion c = absent \/ (exists ch v, apiVersion c = defined (String ch v)) ->
  exists this st',
    ILevelClient.new l remote st = Some (Normal this, st')
    /\ axios.baseURL (ILevelClient.client this)
       = baseUrl c +:+ "/api/" +:+ or_default (apiVersion c) "v1".
Proof.
  intros H Hv. eexists _, _. split; [apply (new_run l c remote st H)|].
  cbn. destruct Hv as [->|(ch & v & ->)]; reflexivity.
Qed.

Lemma client_and_resource_agree_on_the_version_witness :
  exists this st',
    ILevelClient.new 1%positive acme_remote
      {| heap := <[1%positive := example_config]> ∅; issued := [] |}
    = Some (Normal this, st')
    /\ axios.baseURL (ILevelClient.client this)
       = "https://sandapi.ilevelsolutions.com" +:+ "/api/" +:+ "v1".
Proof.
  exact (client_and_resource_agree_on_the_version 1%positive example_config acme_remote
           {| heap := <[1%positive := example_config]> ∅; issued := [] |}
           eq_refl (or_introl eq_refl)).
Defined.

(** X18: the default version is lost when the record carries [apiVersion]
    explicitly as [undefined] (the spread overwrites the default, and the
    base path ends in [/api/undefined]) or as the empty string (the base
    path ends in [/api/]); the configuration resource reports [v1] in both
    cases. *)
Theorem explicit_undefined_or_empty_version
    (l : loc) (c : ILevelConfig) (remote : Remote) (st : State) :
  heap st !! l = Some c ->
  apiVersion c = undefined \/ apiVersion c = defined EmptyString ->
  exists this st',
    ILevelClient.new l remote st = Some (Normal this, st')
    /\ axios.baseURL (ILevelClient.client this)
       = baseUrl c +:+ "/api/" +:+ match apiVersion c with
                                   | undefined => "undefined"
                                   | _ => EmptyString
                                   end
    /\ or_default (apiVersion c) "v1" = "v1".
Proof.
  intros H Hv. eexists _, _. split; [apply (new_run l c remote st H)|].
  cbn. destruct Hv as [-> | ->]; split; reflexivity.
Qed.

Lemma explicit_undefined_or_empty_version_witness :
  exists this st',
    ILevelClient.new 1%positive acme_remote
      {| heap := <[1%positive := undefined_version_config]> ∅; issued := [] |}
    = Some (Normal this, st')
    /\ axios.baseURL (ILevelClient.client this)
       = "https://clients.ilevelsolutions.com/api/undefined".
Proof.
  assert (H : heap {| heap := <[1%positive := undefined_version_config]> ∅; issued := [] |}
                !! 1%positive = Some undefined_version_config) by reflexivity.
  destruct (explicit_undefined_or_empty_version 1%positive undefined_version_config
              acme_remote
              {| heap := <[1%positive := undefined_version_config]> ∅; issued := [] |}
              H (or_introl eq_refl)) as (this & st' & Hnew & Hbase & _).
  exists this, st'. split; [exact Hnew|exact Hbase].
Defined.

(** X19: in the catalog every schema is an object schema whose required
    names are all declared as properties; a tool's case destructures the
    argument bag exactly when its schema requires something, with one
    exception: [create_webhook] requires [url] and [events] but passes the
    bag on whole. *)
Theorem catalog_schemas_and_cases
   : Forall (fun t =>
              (exists o, inputSchema t = JObject o
                         /\ obj_get "type" o = Some (JString "object"))
              /\ Forall (fun k => k ∈ schema_properties (inputSchema t))
                   (schema_required (inputSchema t))
              /\ (name t ∈ destructuring_tools
                  <-> schema_required (inputSchema t) <> []
                      /\ name t <> "create_webhook"))
           tools.
Proof.
  unfold tools.
  repeat (apply Forall_cons_2;
          [split; [eexists; split; reflexivity|];
           split; [apply (bool_decide_unpack _); vm_compute; exact I|];
           apply (bool_decide_unpack _); vm_compute; exact I|]).
  apply Forall_nil_2.
Qed.





